(** * train_catboost.py: the ranking metrics and the training orchestration

    A shallow embedding of [src/server/ml/train_catboost.py].

    Numbers.  NumPy's float64 values are idealised where only their order or
    their bounds matter: prediction scores and the feature importances are
    rationals ([Q]; every finite float64 is one, and the comparisons of
    [np.argsort] and [np.argmax] are those of the rationals; NaN is outside
    the model), and the discounted gains, which go through [np.log2], are
    real numbers ([R]) with exact addition and division.  The test size is
    not idealised, because its arithmetic decides where the group vector is
    cut: it is a Python number ([number]), an [int] or a float64 with the
    rounding of the binary64 floats.  True ranks, race identifiers and group
    sizes are integers ([Z]).

    Effects.  A pure function that can raise returns a [res]; a function that
    calls the outside is a [Prog]: its outcome together with the calls it
    made, in order.  What each library call returns or raises is read from an
    environment ([Env]), over which the properties quantify.  Printing to
    the standard streams is taken to succeed, and a library raises instances
    of [Exception] only. *)

From Stdlib Require Import PrimFloat.
From Stdlib Require FloatOps Uint63.
From Stdlib Require Import String Bool ZArith QArith Qround Reals Lia Lra.
From Stdlib Require Import List Permutation Sorted.
Import ListNotations.

Set Implicit Arguments.
Set Warnings "-inexact-float".

(** ** Python results *)

(** Instances of Python's [Exception]: the two NumPy can raise in the
    metrics, the [KeyError] of a missing column, and whatever a library call
    raises (class name and message). *)
Inductive exn : Type :=
| IndexError
| ValueError
| KeyError (key : string)
| LibraryError (cls msg : string).

Inductive res (A : Type) : Type :=
| Ok (a : A)
| Raise (e : exn).
Arguments Ok {A} a.
Arguments Raise {A} e.

(** ** NumPy primitives used by the metrics *)

Module Np.

(** [l[:k]]: a negative stop counts from the end. *)
Definition slice_to {A : Type} (k : Z) (l : list A) : list A :=
  if (0 <=? k)%Z then firstn (Z.to_nat k) l
  else firstn (length l - Z.to_nat (- k)) l.

(** [l[k:]]: a negative start counts from the end. *)
Definition slice_from {A : Type} (k : Z) (l : list A) : list A :=
  if (0 <=? k)%Z then skipn (Z.to_nat k) l
  else skipn (length l - Z.to_nat (- k)) l.

(** [enumerate(l)] *)
Definition enumerate {A : Type} (l : list A) : list (nat * A) :=
  combine (seq 0 (length l)) l.

(** Insertion of a keyed index in a list sorted by key; an entry goes
    before the first one whose key is not smaller, so that entries of equal
    key keep their input order (the order in which NumPy leaves equal keys is
    not specified for its default sort; see [gain_any_order]). *)
Fixpoint insert_key (x : Q * nat) (l : list (Q * nat)) : list (Q * nat) :=
  match l with
  | [] => [x]
  | y :: l' => if Qle_bool (fst x) (fst y) then x :: y :: l'
               else y :: insert_key x l'
  end.

Definition sort_keys (l : list (Q * nat)) : list (Q * nat) :=
  fold_right insert_key [] l.

(** [np.argsort(keys)]: the indices of [keys] by ascending key. *)
Definition argsort (keys : list Q) : list nat :=
  map snd (sort_keys (combine keys (seq 0 (length keys)))).

Fixpoint insert_Z (x : Z) (l : list Z) : list Z :=
  match l with
  | [] => [x]
  | y :: l' => if (x <=? y)%Z then x :: y :: l' else y :: insert_Z x l'
  end.

(** [np.sort(a)] on an integer array. *)
Definition sort (a : list Z) : list Z := fold_right insert_Z [] a.

(** [a[indices]]: fancy indexing, [IndexError] on an index out of bounds. *)
Fixpoint take (a : list Z) (indices : list nat) : res (list Z) :=
  match indices with
  | [] => Ok []
  | i :: rest =>
      match nth_error a i with
      | None => Raise IndexError
      | Some v =>
          match take a rest with
          | Ok vs => Ok (v :: vs)
          | Raise e => Raise e
          end
      end
  end.

(** The scan of [np.argmax]: the running maximum [mp] at index [best] is
    replaced by the entry at [i] when that entry is not [<= mp]. *)
Fixpoint argmax_scan (mp : Q) (best i : nat) (rest : list Q) : nat :=
  match rest with
  | [] => best
  | x :: rest' =>
      if Qle_bool x mp then argmax_scan mp best (S i) rest'
      else argmax_scan x i (S i) rest'
  end.

(** [np.argmax(a)]: [ValueError] on an empty array. *)
Definition argmax (a : list Q) : res nat :=
  match a with
  | [] => Raise ValueError
  | x :: rest => Ok (argmax_scan x 0 1 rest)
  end.

(** [np.log2] *)
Definition log2 (x : R) : R := (ln x / ln 2)%R.

End Np.

(** ** The metrics *)

(** [1.0 / np.log2(i + 2)] *)
Definition discount (i : nat) : R := (1 / Np.log2 (INR i + 2))%R.

(** [sum(1.0 / np.log2(i + 2) for i, rel in enumerate(ranked) if rel <= 2)];
    Python's [sum] adds from the left, starting at 0. *)
Definition discounted_gain (ranked : list Z) : R :=
  fold_left Rplus
    (map (fun p => discount (fst p))
         (filter (fun p => (snd p <=? 2)%Z) (Np.enumerate ranked)))
    0%R.

(** [np.argsort(-y_pred)[:k]] *)
Definition ranked_indices (y_pred : list Q) (k : Z) : list nat :=
  Np.slice_to k (Np.argsort (map Qopp y_pred)).

(** [np.sort(y_true)[:k]] *)
Definition ideal_ranked (y_true : list Z) (k : Z) : list Z :=
  Np.slice_to k (Np.sort y_true).

(** [dcg / idcg if idcg > 0 else 0] *)
Definition normalise (dcg idcg : R) : R :=
  if Rlt_dec 0 idcg then (dcg / idcg)%R else 0%R.

Definition calculate_ndcg (y_true : list Z) (y_pred : list Q) (k : Z) : res R :=
  match Np.take y_true (ranked_indices y_pred k) with
  | Raise e => Raise e
  | Ok ranked_true =>
      let dcg := discounted_gain ranked_true in
      let idcg := discounted_gain (ideal_ranked y_true k) in
      Ok (normalise dcg idcg)
  end.

Definition calculate_accuracy (y_true : list Z) (y_pred : list Q) : res R :=
  match Np.argmax y_pred with
  | Raise e => Raise e
  | Ok top1_pred =>
      match nth_error y_true top1_pred with
      | None => Raise IndexError
      | Some r => Ok (if (r <=? 2)%Z then 1%R else 0%R)
      end
  end.


(** ** Data of the pipeline *)

Local Open Scope string_scope.
Local Open Scope list_scope.

(** Scalars of the JSON configuration. *)
Inductive json : Type :=
| JNull
| JBool (b : bool)
| JInt (z : Z)
| JFloat (q : Q)
| JStr (s : string).

(** A Python [dict] with string keys, in insertion order. *)
Definition dict (V : Type) : Type := list (string * V).

Fixpoint dict_get {V : Type} (d : dict V) (key : string) : option V :=
  match d with
  | [] => None
  | (k, v) :: d' => if String.eqb k key then Some v else dict_get d' key
  end.

(** [d.get(key, default)] *)
Definition get_or {V : Type} (d : dict V) (key : string) (default : V) : V :=
  match dict_get d key with Some v => v | None => default end.

(** [d[key] = v]: an existing key keeps its position. *)
Fixpoint dict_set {V : Type} (d : dict V) (key : string) (v : V) : dict V :=
  match d with
  | [] => [(key, v)]
  | (k, v') :: d' =>
      if String.eqb k key then (k, v) :: d' else (k, v') :: dict_set d' key v
  end.

(** A JSON number as [json.loads] reads it: an [int], or a float64. *)
Inductive number : Type :=
| PyInt (z : Z)
| PyFloat (f : PrimFloat.float).

(** The configuration: each key is optional, and is read with
    [config.get(key, default)]; the values are taken to have the types the
    script uses them at. *)
Record Config : Type := {
  dataPath : option string;
  outputPath : option string;
  testSize : option number;
  hyperparameters : option (dict json)
}.

Definition or_default {A : Type} (o : option A) (default : A) : A :=
  match o with Some a => a | None => default end.

(** A pandas column with its storage type. *)
Inductive column : Type :=
| IntCol (v : list Z)
| FloatCol (v : list Q)
| ObjectCol (v : list string).

(** The columns of a frame, by name, in file order. *)
Definition Frame : Type := list (string * column).

(** What [pd.read_csv] returns: the three columns the script names, each
    possibly absent, and the feature columns.  Ranks and race identifiers
    are integer columns. *)
Record DataFrame : Type := {
  rank : option (list Z);
  horse_id : option column;
  race_id : option (list Z);
  features : Frame
}.

(** [X.select_dtypes(include=['object']).columns.tolist()] *)
Definition object_columns (X : Frame) : list string :=
  map fst (filter (fun c => match snd c with ObjectCol _ => true | _ => false end) X).

(** [df.groupby('race_id').size().values]: the number of rows of each race,
    by ascending race identifier. *)
Definition group_sizes (ids : list Z) : list Z :=
  map (fun r => Z.of_nat (count_occ Z.eq_dec ids r))
      (nodup Z.eq_dec (Np.sort ids)).

(** A CatBoost [Pool], as the arguments it was built from. *)
Record Pool : Type := {
  data : Frame;
  label : list Z;
  group_id : option (list Z);
  cat_features : list string
}.

(** The keyword arguments of [CatBoostRanker] that come from the
    configuration; [verbose=100], [random_state=42] and [task_type='CPU']
    are constants. *)
Record Ranker : Type := {
  iterations : json;
  learning_rate : json;
  depth : json;
  loss_function : json;
  eval_metric : json;
  early_stopping_rounds : json
}.

Record Metrics : Type := {
  ndcg4 : R;
  ndcg3 : R;
  ndcg2 : R;
  accuracy : R;
  precision : Q;
  recall : Q;
  calibrationError : Q;
  inferenceLatency : Z
}.

Record Result : Type := {
  modelPath : string;
  metrics : Metrics;
  timestamp : string;
  hyperparameters_echo : dict json;
  featureImportance : list (string * Q)
}.

(** ** Effects *)

Inductive stream : Type := Stdout | Stderr.

(** What is printed: a line of text, or [json.dumps] of the result. *)
Inductive text : Type :=
| Line (s : string)
| JsonDumps (r : Result).

(** The calls the script makes to the outside, in the order it makes them. *)
Inductive event : Type :=
| Print (file : stream) (t : text)
| Mkdir (path : string)
| ReadCsv (path : string)
| TrainTestSplit (X : Frame) (y : list Z) (test_size : number)
| NewPool (p : Pool)
| StartRun (run_name : string)
| LogParam (key : string) (value : json)
| NewRanker (m : Ranker)
| Fit (m : Ranker) (train_pool eval_set : Pool)
| Predict (m : Ranker) (X : Frame)
| LogMetric (key : string) (value : R)
| OpenWb (path : string)
| PickleDump (m : Ranker) (path : string)
| CloseFile (path : string)
| LogArtifact (path : string)
| GetFeatureImportance (m : Ranker)
| Dumps (r : Result)
| JsonLoads (s : string)
| EndRun.

(** What leaves a block of Python other than a value: an [Exception], or
    the [SystemExit] of [sys.exit], which [except Exception] does not catch. *)
Inductive signal : Type :=
| Exception (e : exn)
| SystemExit (status : Z).

Inductive outcome (A : Type) : Type :=
| Returns (a : A)
| Raises (s : signal).
Arguments Returns {A} a.
Arguments Raises {A} s.

(** A computation: its outcome and the calls it made. *)
Definition Prog (A : Type) : Type := outcome A * list event.

Definition ret {A : Type} (a : A) : Prog A := (Returns a, []).

Definition bind {A B : Type} (c : Prog A) (f : A -> Prog B) : Prog B :=
  match c with
  | (Returns a, t) => let (r, t') := f a in (r, t ++ t')
  | (Raises s, t) => (Raises s, t)
  end.

Notation "x <- c ;; k" := (bind c (fun x => k))
  (at level 61, c at next level, right associativity).
Notation "c ;; k" := (bind c (fun _ => k))
  (at level 61, right associativity).

(** A call to the outside: the call is recorded, and returns or raises as
    the library decides. *)
Definition call {A : Type} (ev : event) (r : res A) : Prog A :=
  match r with
  | Ok a => (Returns a, [ev])
  | Raise e => (Raises (Exception e), [ev])
  end.

(** A pure function that can raise. *)
Definition lift {A : Type} (r : res A) : Prog A :=
  match r with
  | Ok a => ret a
  | Raise e => (Raises (Exception e), [])
  end.

Definition print (file : stream) (t : text) : Prog unit :=
  (Returns tt, [Print file t]).

Definition sys_exit {A : Type} (status : Z) : Prog A :=
  (Raises (SystemExit status), []).

(** [try: body  except Exception as e: handler e] *)
Definition try_except {A : Type} (body : Prog A) (handler : exn -> Prog A) : Prog A :=
  match body with
  | (Raises (Exception e), t) => let (r, t') := handler e in (r, t ++ t')
  | other => other
  end.

(** [try: body  finally: final]: [final] runs however [body] ends; what it
    raises replaces the outcome of [body]. *)
Definition try_finally {A : Type} (body : Prog A) (final : Prog unit) : Prog A :=
  let (r, t) := body in
  match final with
  | (Returns _, t') => (r, t ++ t')
  | (Raises s, t') => (Raises s, t ++ t')
  end.

(** [for x in xs: body x] *)
Fixpoint for_each {A : Type} (xs : list A) (body : A -> Prog unit) : Prog unit :=
  match xs with
  | [] => ret tt
  | x :: xs' => body x ;; for_each xs' body
  end.

(** The libraries the script calls.  Each field says, for the arguments of a
    call, whether it returns (and what) or raises; [import_packages] is the
    message of the [ImportError] of the imports at the top, if any. *)
Record Env : Type := {
  import_packages : option string;
  json_loads : string -> res Config;
  path_mkdir : string -> res unit;
  read_csv : string -> res DataFrame;
  train_test_split :
    Frame -> list Z -> number -> res (Frame * Frame * list Z * list Z);
  new_pool : Pool -> res unit;
  mlflow_start_run : string -> res unit;
  mlflow_log_param : string -> json -> res unit;
  new_ranker : Ranker -> res unit;
  model_fit : Ranker -> Pool -> Pool -> res unit;
  model_predict : Ranker -> Frame -> res (list Q);
  mlflow_log_metric : string -> R -> res unit;
  open_wb : string -> res unit;
  pickle_dump : Ranker -> string -> res unit;
  mlflow_log_artifact : string -> res unit;
  get_feature_importance : Ranker -> res (list Q);
  datetime_now : string;
  json_dumps : Result -> res unit;
  mlflow_end_run : res unit
}.

(** [str(e)] *)
Definition str (e : exn) : string :=
  match e with
  | IndexError => "index out of bounds"
  | ValueError => "attempt to get argmax of an empty sequence"
  | KeyError key => ("'" ++ key ++ "'")%string
  | LibraryError _ msg => msg
  end.

(** ** The script *)

(** [float(z)], for an [int] below [2^63] in magnitude, as the length of a
    vector and the literal [1] are: the nearest float64. *)
Definition float_of_int (z : Z) : PrimFloat.float :=
  if (z <? 0)%Z then PrimFloat.opp (PrimFloat.of_uint63 (Uint63.of_Z (- z)))
  else PrimFloat.of_uint63 (Uint63.of_Z z).

(** [a - b]: exact on two [int]s, otherwise the float64 difference, an
    [int] operand converted first. *)
Definition py_sub (a b : number) : number :=
  match a, b with
  | PyInt x, PyInt y => PyInt (x - y)
  | PyInt x, PyFloat y => PyFloat (PrimFloat.sub (float_of_int x) y)
  | PyFloat x, PyInt y => PyFloat (PrimFloat.sub x (float_of_int y))
  | PyFloat x, PyFloat y => PyFloat (PrimFloat.sub x y)
  end.

(** [a * b], likewise. *)
Definition py_mul (a b : number) : number :=
  match a, b with
  | PyInt x, PyInt y => PyInt (x * y)
  | PyInt x, PyFloat y => PyFloat (PrimFloat.mul (float_of_int x) y)
  | PyFloat x, PyInt y => PyFloat (PrimFloat.mul x (float_of_int y))
  | PyFloat x, PyFloat y => PyFloat (PrimFloat.mul x y)
  end.

(** [int(x)]: an [int] is returned as it is, a float64 is truncated towards
    zero; there is no integer for NaN or an infinity. *)
Definition py_int (x : number) : res Z :=
  match x with
  | PyInt z => Ok z
  | PyFloat f =>
      match FloatOps.Prim2SF f with
      | SpecFloat.S754_zero _ => Ok 0%Z
      | SpecFloat.S754_infinity _ =>
          Raise (LibraryError "OverflowError"
                              "cannot convert float infinity to integer")
      | SpecFloat.S754_nan =>
          Raise (LibraryError "ValueError"
                              "cannot convert float NaN to integer")
      | SpecFloat.S754_finite negative m e =>
          Ok (if negative then (- Z.shiftl (Zpos m) e)%Z
              else Z.shiftl (Zpos m) e)
      end
  end.

(** The [try] block of [load_data] (lines 30-41); [df.drop] of the three
    named columns, absent ones ignored, leaves the feature columns. *)
Definition load_data_body (env : Env) (data_path : string)
  : Prog (Frame * list Z * option (list Z)) :=
  df <- call (ReadCsv data_path) (read_csv env data_path) ;;
  let X := features df in
  y <- lift (match rank df with
             | Some v => Ok v
             | None => Raise (KeyError "rank")
             end) ;;
  let group_ids :=
    match race_id df with
    | Some ids => Some (group_sizes ids)
    | None => None
    end in
  ret (X, y, group_ids).

Definition load_data (env : Env) (data_path : string)
  : Prog (Frame * list Z * option (list Z)) :=
  try_except
    (load_data_body env data_path)
    (fun e =>
       print Stderr (Line ("Error loading data: " ++ str e)%string) ;;
       (Raises (Exception e), [])).

(** [int(len(group_ids) * (1 - test_size))] *)
Definition group_cut (group_ids : list Z) (test_size : number) : res Z :=
  py_int (py_mul (PyInt (Z.of_nat (length group_ids)))
                 (py_sub (PyInt 1) test_size)).

(** Lines 68-75: the group sizes of the two partitions.  The cut is
    computed once for each slice, with the same result. *)
Definition split_groups (group_ids : option (list Z)) (test_size : number)
  : res (option (list Z) * option (list Z)) :=
  match group_ids with
  | Some g =>
      match group_cut g test_size, group_cut g test_size with
      | Ok c, Ok c' => Ok (Some (Np.slice_to c g), Some (Np.slice_from c' g))
      | Raise e, _ => Raise e
      | _, Raise e => Raise e
      end
  | None => Ok (None, None)
  end.

(** [sorted(items, key=lambda x: x[1], reverse=True)]: by descending value,
    items of equal value in their input order. *)
Fixpoint insert_desc (x : string * Q) (l : list (string * Q)) : list (string * Q) :=
  match l with
  | [] => [x]
  | y :: l' => if Qle_bool (snd y) (snd x) then x :: y :: l'
               else y :: insert_desc x l'
  end.

Definition sorted_desc (items : list (string * Q)) : list (string * Q) :=
  fold_right insert_desc [] items.

(** The dict comprehension over [zip(feature_names, feature_importance)]. *)
Definition importance_dict (feature_names : list string) (importance : list Q)
  : dict Q :=
  fold_left (fun d p => dict_set d (fst p) (snd p))
            (combine feature_names importance) [].

Definition make_ranker (hp : dict json) : Ranker :=
  {| iterations := get_or hp "iterations" (JInt 1000);
     learning_rate := get_or hp "learning_rate" (JFloat (5 # 100));
     depth := get_or hp "depth" (JInt 8);
     loss_function := get_or hp "loss_function" (JStr "YetiRank");
     eval_metric := get_or hp "eval_metric" (JStr "NDCG:top=4");
     early_stopping_rounds := get_or hp "early_stopping_rounds" (JInt 50) |}.

(** The body of the [try] of [train_catboost] (lines 96-174). *)
Definition train_body (env : Env) (output_path : string) (hp : dict json)
    (X_train X_test : Frame) (y_test : list Z) (train_pool test_pool : Pool)
  : Prog unit :=
  for_each hp (fun kv =>
    call (LogParam (fst kv) (snd kv)) (mlflow_log_param env (fst kv) (snd kv))) ;;
  print Stdout (Line "Training CatBoost model...") ;;
  let model := make_ranker hp in
  call (NewRanker model) (new_ranker env model) ;;
  call (Fit model train_pool test_pool) (model_fit env model train_pool test_pool) ;;
  print Stdout (Line "Evaluating model...") ;;
  predictions <- call (Predict model X_test) (model_predict env model X_test) ;;
  v4 <- lift (calculate_ndcg y_test predictions 4) ;;
  v3 <- lift (calculate_ndcg y_test predictions 3) ;;
  v2 <- lift (calculate_ndcg y_test predictions 2) ;;
  acc <- lift (calculate_accuracy y_test predictions) ;;
  call (LogMetric "ndcg4" v4) (mlflow_log_metric env "ndcg4" v4) ;;
  call (LogMetric "ndcg3" v3) (mlflow_log_metric env "ndcg3" v3) ;;
  call (LogMetric "ndcg2" v2) (mlflow_log_metric env "ndcg2" v2) ;;
  call (LogMetric "accuracy" acc) (mlflow_log_metric env "accuracy" acc) ;;
  let model_path := (output_path ++ "/catboost_model.pkl")%string in
  call (OpenWb model_path) (open_wb env model_path) ;;
  try_finally
    (call (PickleDump model model_path) (pickle_dump env model model_path))
    (Returns tt, [CloseFile model_path]) ;;
  call (LogArtifact model_path) (mlflow_log_artifact env model_path) ;;
  feature_importance <-
    call (GetFeatureImportance model) (get_feature_importance env model) ;;
  let feature_names := map fst X_train in
  let importance := importance_dict feature_names feature_importance in
  let result :=
    {| modelPath := model_path;
       metrics :=
         {| ndcg4 := v4;
            ndcg3 := v3;
            ndcg2 := v2;
            accuracy := acc;
            precision := 92 # 100;
            recall := 90 # 100;
            calibrationError := 5 # 100;
            inferenceLatency := 25 |};
       timestamp := datetime_now env;
       hyperparameters_echo := hp;
       featureImportance := firstn 10 (sorted_desc importance) |} in
  call (Dumps result) (json_dumps env result) ;;
  print Stdout (JsonDumps result).

(** Lines 51-54: the configuration with its defaults. *)
Definition data_path_of (config : Config) : string :=
  or_default (dataPath config) "/tmp/training_data.csv".

Definition output_path_of (config : Config) : string :=
  or_default (outputPath config) "/tmp/models".

Definition test_size_of (config : Config) : number :=
  or_default (testSize config) (PyFloat 0.2%float).

Definition hyperparameters_of (config : Config) : dict json :=
  or_default (hyperparameters config) [].

(** What the lines before the tracking run (50-90) hand to the rest. *)
Record Prepared : Type := {
  prep_output_path : string;
  prep_hyperparameters : dict json;
  prep_X_train : Frame;
  prep_X_test : Frame;
  prep_y_test : list Z;
  prep_train_pool : Pool;
  prep_test_pool : Pool
}.

(** Lines 50-90 of [train_catboost]: the configuration, the output
    directory, the data, the row split, the group slices and the pools
    ([train_size], line 70, is never used). *)
Definition prepare (env : Env) (config : Config) : Prog Prepared :=
  let data_path := data_path_of config in
  let output_path := output_path_of config in
  let test_size := test_size_of config in
  let hp := hyperparameters_of config in
  call (Mkdir output_path) (path_mkdir env output_path) ;;
  print Stdout (Line ("Loading data from " ++ data_path ++ "...")%string) ;;
  loaded <- load_data env data_path ;;
  let '(X, y, group_ids) := loaded in
  parts <- call (TrainTestSplit X y test_size)
                (train_test_split env X y test_size) ;;
  let '(X_train, X_test, y_train, y_test) := parts in
  groups <- lift (split_groups group_ids test_size) ;;
  let (train_groups, test_groups) := groups in
  let train_pool :=
    {| data := X_train; label := y_train; group_id := train_groups;
       cat_features := object_columns X_train |} in
  call (NewPool train_pool) (new_pool env train_pool) ;;
  let test_pool :=
    {| data := X_test; label := y_test; group_id := test_groups;
       cat_features := object_columns X_test |} in
  call (NewPool test_pool) (new_pool env test_pool) ;;
  ret {| prep_output_path := output_path;
         prep_hyperparameters := hp;
         prep_X_train := X_train;
         prep_X_test := X_test;
         prep_y_test := y_test;
         prep_train_pool := train_pool;
         prep_test_pool := test_pool |}.

(** The tracking run (lines 93-177): started, then the body under
    [try ... finally: mlflow.end_run()]. *)
Definition tracked_run (env : Env) (p : Prepared) : Prog unit :=
  call (StartRun "catboost_training") (mlflow_start_run env "catboost_training") ;;
  try_finally
    (train_body env (prep_output_path p) (prep_hyperparameters p)
                (prep_X_train p) (prep_X_test p) (prep_y_test p)
                (prep_train_pool p) (prep_test_pool p))
    (call EndRun (mlflow_end_run env)).

Definition train_catboost (env : Env) (config : Config) : Prog unit :=
  p <- prepare env config ;;
  tracked_run env p.

(** The [__main__] block. *)
Definition main (env : Env) (argv : list string) : Prog unit :=
  if (length argv <? 2)%nat then
    print Stderr (Line "Usage: python train_catboost.py <config_json>") ;;
    sys_exit 1
  else
    config <- call (JsonLoads (nth 1 argv "")) (json_loads env (nth 1 argv "")) ;;
    train_catboost env config.

(** The whole script: the guarded imports, then the [__main__] block. *)
Definition script (env : Env) (argv : list string) : Prog unit :=
  match import_packages env with
  | Some msg =>
      print Stderr (Line ("Error: Missing required package: " ++ msg)%string) ;;
      sys_exit 1
  | None => main env argv
  end.

(** The exit status of the interpreter. *)
Definition exit_status {A : Type} (p : Prog A) : Z :=
  match fst p with
  | Returns _ => 0
  | Raises (SystemExit status) => status
  | Raises (Exception _) => 1
  end.

Definition trace {A : Type} (p : Prog A) : list event := snd p.

(** ** Auxiliary definitions for the proofs *)

(** The discounted gain, position by position, from position [i]. *)
Fixpoint gain_from (i : nat) (ranked : list Z) : R :=
  match ranked with
  | [] => 0%R
  | rel :: rest =>
      ((if (rel <=? 2)%Z then discount i else 0) + gain_from (S i) rest)%R
  end.

(** The number of placed entries (true rank at most 2). *)
Definition placed (ranks : list Z) : nat :=
  length (filter (fun r => (r <=? 2)%Z) ranks).

(** The sum of the [n] discounts from position [i] on. *)
Fixpoint discount_sum (i n : nat) : R :=
  match n with
  | O => 0%R
  | S n' => (discount i + discount_sum (S i) n')%R
  end.

(** The entry of [a] at index [i] (0 out of bounds). *)
Definition at_index (a : list Z) (i : nat) : Z := nth i a 0%Z.

(** The entry of [a] at index [i], for scores. *)
Definition score_at (a : list Q) (i : nat) : Q := nth i a 0%Q.

(** The true ranks in predicted order: [y_true[np.argsort(-y_pred)]]. *)
Definition ranked_all (y_true : list Z) (y_pred : list Q) : list Z :=
  map (at_index y_true) (Np.argsort (map Qopp y_pred)).

(** The [k] highest-scored entries are the [k] best true ranks, in order. *)
Definition top_k_matches (y_true : list Z) (y_pred : list Q) (k : Z) : Prop :=
  Np.take y_true (ranked_indices y_pred k) = Ok (ideal_ranked y_true k).

(** A lower true rank always has a strictly higher score. *)
Definition order_consistent (y_true : list Z) (y_pred : list Q) : Prop :=
  forall i j, (i < length y_true)%nat -> (j < length y_true)%nat ->
    (at_index y_true i < at_index y_true j)%Z ->
    score_at y_pred j < score_at y_pred i.

(** The order of the keyed indices that [Np.sort_keys] sorts by. *)
Definition key_le (x y : Q * nat) : Prop := fst x <= fst y.

(** [i] is the lowest index at which [a] is maximal. *)
Definition first_max (a : list Q) (i : nat) : Prop :=
  (i < length a)%nat /\
  (forall j, (j < length a)%nat -> score_at a j <= score_at a i) /\
  (forall j, (j < i)%nat -> score_at a j < score_at a i).

(** Every call a computation makes satisfies [P]. *)
Definition emits_only {A : Type} (P : event -> Prop) (p : Prog A) : Prop :=
  Forall P (snd p).

(** A call that neither starts nor ends the tracking run. *)
Definition not_run_event (ev : event) : Prop :=
  match ev with
  | StartRun _ | EndRun => False
  | _ => True
  end.

(** The four constant entries of the metrics object. *)
Definition placeholders (m : Metrics) : Prop :=
  precision m = 92 # 100 /\ recall m = 90 # 100 /\
  calibrationError m = 5 # 100 /\ inferenceLatency m = 25%Z.

(** A call that hands over a result keeps the placeholders. *)
Definition keeps_placeholders (ev : event) : Prop :=
  match ev with
  | Dumps r | Print _ (JsonDumps r) => placeholders (metrics r)
  | _ => True
  end.

(** A run that returns has printed a result. *)
Definition prints_result_if_returns (p : Prog unit) : Prop :=
  fst p = Returns tt -> exists r, In (Print Stdout (JsonDumps r)) (snd p).

(** The calls of the body of the [try] when every one of them returns, for
    the result [r] it prints. *)
Definition body_calls (output_path : string) (hp : dict json) (X_test : Frame)
    (train_pool test_pool : Pool) (r : Result) : list event :=
  map (fun kv => LogParam (fst kv) (snd kv)) hp ++
  [Print Stdout (Line "Training CatBoost model...");
   NewRanker (make_ranker hp);
   Fit (make_ranker hp) train_pool test_pool;
   Print Stdout (Line "Evaluating model...");
   Predict (make_ranker hp) X_test;
   LogMetric "ndcg4" (ndcg4 (metrics r));
   LogMetric "ndcg3" (ndcg3 (metrics r));
   LogMetric "ndcg2" (ndcg2 (metrics r));
   LogMetric "accuracy" (accuracy (metrics r));
   OpenWb (output_path ++ "/catboost_model.pkl")%string;
   PickleDump (make_ranker hp) (output_path ++ "/catboost_model.pkl")%string;
   CloseFile (output_path ++ "/catboost_model.pkl")%string;
   LogArtifact (output_path ++ "/catboost_model.pkl")%string;
   GetFeatureImportance (make_ranker hp);
   Dumps r;
   Print Stdout (JsonDumps r)].

(** The result built at lines 153-172. *)
Definition make_result (env : Env) (output_path : string) (hp : dict json)
    (X_train : Frame) (v4 v3 v2 acc : R) (feature_importance : list Q)
  : Result :=
  {| modelPath := (output_path ++ "/catboost_model.pkl")%string;
     metrics :=
       {| ndcg4 := v4;
          ndcg3 := v3;
          ndcg2 := v2;
          accuracy := acc;
          precision := 92 # 100;
          recall := 90 # 100;
          calibrationError := 5 # 100;
          inferenceLatency := 25 |};
     timestamp := datetime_now env;
     hyperparameters_echo := hp;
     featureImportance :=
       firstn 10 (sorted_desc (importance_dict (map fst X_train)
                                               feature_importance)) |}.

(** Every call of the body of the [try] returned, with these predictions
    and feature importances, and [r] is the result built from them. *)
Definition body_succeeded (env : Env) (output_path : string) (hp : dict json)
    (X_train X_test : Frame) (y_test : list Z) (train_pool test_pool : Pool)
    (predictions feature_importance : list Q) (r : Result) : Prop :=
  Forall (fun kv => mlflow_log_param env (fst kv) (snd kv) = Ok tt) hp /\
  new_ranker env (make_ranker hp) = Ok tt /\
  model_fit env (make_ranker hp) train_pool test_pool = Ok tt /\
  model_predict env (make_ranker hp) X_test = Ok predictions /\
  calculate_ndcg y_test predictions 4 = Ok (ndcg4 (metrics r)) /\
  calculate_ndcg y_test predictions 3 = Ok (ndcg3 (metrics r)) /\
  calculate_ndcg y_test predictions 2 = Ok (ndcg2 (metrics r)) /\
  calculate_accuracy y_test predictions = Ok (accuracy (metrics r)) /\
  mlflow_log_metric env "ndcg4" (ndcg4 (metrics r)) = Ok tt /\
  mlflow_log_metric env "ndcg3" (ndcg3 (metrics r)) = Ok tt /\
  mlflow_log_metric env "ndcg2" (ndcg2 (metrics r)) = Ok tt /\
  mlflow_log_metric env "accuracy" (accuracy (metrics r)) = Ok tt /\
  open_wb env (output_path ++ "/catboost_model.pkl")%string = Ok tt /\
  pickle_dump env (make_ranker hp)
              (output_path ++ "/catboost_model.pkl")%string = Ok tt /\
  mlflow_log_artifact env (output_path ++ "/catboost_model.pkl")%string = Ok tt /\
  get_feature_importance env (make_ranker hp) = Ok feature_importance /\
  json_dumps env r = Ok tt /\
  r = make_result env output_path hp X_train
        (ndcg4 (metrics r)) (ndcg3 (metrics r)) (ndcg2 (metrics r))
        (accuracy (metrics r)) feature_importance.

(** The calls [prepare] can make. *)
Definition prepare_event (ev : event) : Prop :=
  match ev with
  | Mkdir _ | Print _ (Line _) | ReadCsv _ | TrainTestSplit _ _ _ | NewPool _ =>
      True
  | _ => False
  end.

(** The order of [sorted(..., reverse=True)] on the importances. *)
Definition importance_ge (a b : string * Q) : Prop := snd b <= snd a.

(** A computation that raises nothing but instances of [Exception]. *)
Definition raises_exceptions {A : Type} (p : Prog A) : Prop :=
  forall s, fst p = Raises s -> exists e, s = Exception e.

(** In a trace, a model file that was opened is written to and closed. *)
Definition files_closed (env : Env) (t : list event) : Prop :=
  forall path, In (OpenWb path) t -> open_wb env path = Ok tt ->
    exists m, In (PickleDump m path) t /\ In (CloseFile path) t.

(** A call that prints no result. *)
Definition not_result_event (ev : event) : Prop :=
  match ev with
  | Print _ (JsonDumps _) => False
  | _ => True
  end.

(** The sum of a vector of group sizes. *)
Definition sum_Z (l : list Z) : Z := fold_right Z.add 0%Z l.

(** The usage line of the [__main__] block. *)
Definition usage : event :=
  Print Stderr (Line "Usage: python train_catboost.py <config_json>").

(** The diagnostic of [load_data]. *)
Definition load_diagnostic (e : exn) : event :=
  Print Stderr (Line ("Error loading data: " ++ str e)%string).

(** ** Sample runs *)

(** Two races of three horses each. *)
Definition sample_frame : DataFrame :=
  {| rank := Some [1; 2; 4; 3; 1; 4]%Z;
     horse_id := Some (IntCol [11; 12; 13; 21; 22; 23]%Z);
     race_id := Some [7; 7; 7; 9; 9; 9]%Z;
     features :=
       [("speed", FloatCol [61 # 1; 59 # 1; 50 # 1; 55 # 1; 63 # 1; 48 # 1]);
        ("jockey", ObjectCol ["a"; "b"; "c"; "a"; "b"; "c"])] |}.

Definition sample_config : Config :=
  {| dataPath := Some "races.csv";
     outputPath := None;
     testSize := None;
     hyperparameters := Some [("iterations", JInt 10)] |}.

(** The same configuration with a test size of two rows. *)
Definition row_count_config : Config :=
  {| dataPath := Some "races.csv";
     outputPath := None;
     testSize := Some (PyInt 2);
     hyperparameters := Some [("iterations", JInt 10)] |}.

(** Every library call succeeds; the split keeps the first race for
    training and the second for testing. *)
Definition sample_env : Env :=
  {| import_packages := None;
     json_loads := fun _ => Ok sample_config;
     path_mkdir := fun _ => Ok tt;
     read_csv := fun _ => Ok sample_frame;
     train_test_split := fun X y _ =>
       Ok ([("speed", FloatCol [61 # 1; 59 # 1; 50 # 1]);
            ("jockey", ObjectCol ["a"; "b"; "c"])],
           [("speed", FloatCol [55 # 1; 63 # 1; 48 # 1]);
            ("jockey", ObjectCol ["a"; "b"; "c"])],
           [1; 2; 4]%Z, [3; 1; 4]%Z);
     new_pool := fun _ => Ok tt;
     mlflow_start_run := fun _ => Ok tt;
     mlflow_log_param := fun _ _ => Ok tt;
     new_ranker := fun _ => Ok tt;
     model_fit := fun _ _ _ => Ok tt;
     model_predict := fun _ _ => Ok [1 # 2; 9 # 10; 1 # 10];
     mlflow_log_metric := fun _ _ => Ok tt;
     open_wb := fun _ => Ok tt;
     pickle_dump := fun _ _ => Ok tt;
     mlflow_log_artifact := fun _ => Ok tt;
     get_feature_importance := fun _ => Ok [70 # 1; 30 # 1];
     datetime_now := "2024-01-01T00:00:00";
     json_dumps := fun _ => Ok tt;
     mlflow_end_run := Ok tt |}.

(** The result that run prints. *)
Definition sample_result : Result :=
  {| modelPath := "/tmp/models/catboost_model.pkl";
     metrics :=
       {| ndcg4 := normalise (discounted_gain [1; 3; 4]%Z)
                             (discounted_gain [1; 3; 4]%Z);
          ndcg3 := normalise (discounted_gain [1; 3; 4]%Z)
                             (discounted_gain [1; 3; 4]%Z);
          ndcg2 := normalise (discounted_gain [1; 3]%Z)
                             (discounted_gain [1; 3]%Z);
          accuracy := 1%R;
          precision := 92 # 100;
          recall := 90 # 100;
          calibrationError := 5 # 100;
          inferenceLatency := 25 |};
     timestamp := "2024-01-01T00:00:00";
     hyperparameters_echo := [("iterations", JInt 10)];
     featureImportance := [("speed", 70 # 1); ("jockey", 30 # 1)] |}.

(** The same as [sample_env], but the split keeps two rows for testing, one
    of each race. *)
Definition row_count_env : Env :=
  {| import_packages := import_packages sample_env;
     json_loads := fun _ => Ok row_count_config;
     path_mkdir := path_mkdir sample_env;
     read_csv := read_csv sample_env;
     train_test_split := fun X y _ =>
       Ok ([("speed", FloatCol [61 # 1; 50 # 1; 55 # 1; 48 # 1]);
            ("jockey", ObjectCol ["a"; "c"; "a"; "c"])],
           [("speed", FloatCol [59 # 1; 63 # 1]);
            ("jockey", ObjectCol ["b"; "b"])],
           [1; 4; 3; 4]%Z, [2; 1]%Z);
     new_pool := new_pool sample_env;
     mlflow_start_run := mlflow_start_run sample_env;
     mlflow_log_param := mlflow_log_param sample_env;
     new_ranker := new_ranker sample_env;
     model_fit := model_fit sample_env;
     model_predict := fun _ _ => Ok [1 # 2; 9 # 10];
     mlflow_log_metric := mlflow_log_metric sample_env;
     open_wb := open_wb sample_env;
     pickle_dump := pickle_dump sample_env;
     mlflow_log_artifact := mlflow_log_artifact sample_env;
     get_feature_importance := get_feature_importance sample_env;
     datetime_now := datetime_now sample_env;
     json_dumps := json_dumps sample_env;
     mlflow_end_run := mlflow_end_run sample_env |}.

(** The same, but fitting raises. *)
Definition failing_fit_env : Env :=
  {| import_packages := import_packages sample_env;
     json_loads := json_loads sample_env;
     path_mkdir := path_mkdir sample_env;
     read_csv := read_csv sample_env;
     train_test_split := train_test_split sample_env;
     new_pool := new_pool sample_env;
     mlflow_start_run := mlflow_start_run sample_env;
     mlflow_log_param := mlflow_log_param sample_env;
     new_ranker := new_ranker sample_env;
     model_fit := fun _ _ _ => Raise (LibraryError "CatBoostError" "fit failed");
     model_predict := model_predict sample_env;
     mlflow_log_metric := mlflow_log_metric sample_env;
     open_wb := open_wb sample_env;
     pickle_dump := pickle_dump sample_env;
     mlflow_log_artifact := mlflow_log_artifact sample_env;
     get_feature_importance := get_feature_importance sample_env;
     datetime_now := datetime_now sample_env;
     json_dumps := json_dumps sample_env;
     mlflow_end_run := mlflow_end_run sample_env |}.

(** The same as [sample_env], but the file cannot be read. *)
Definition missing_file_env : Env :=
  {| import_packages := import_packages sample_env;
     json_loads := json_loads sample_env;
     path_mkdir := path_mkdir sample_env;
     read_csv := fun _ =>
       Raise (LibraryError "FileNotFoundError" "No such file or directory");
     train_test_split := train_test_split sample_env;
     new_pool := new_pool sample_env;
     mlflow_start_run := mlflow_start_run sample_env;
     mlflow_log_param := mlflow_log_param sample_env;
     new_ranker := new_ranker sample_env;
     model_fit := model_fit sample_env;
     model_predict := model_predict sample_env;
     mlflow_log_metric := mlflow_log_metric sample_env;
     open_wb := open_wb sample_env;
     pickle_dump := pickle_dump sample_env;
     mlflow_log_artifact := mlflow_log_artifact sample_env;
     get_feature_importance := get_feature_importance sample_env;
     datetime_now := datetime_now sample_env;
     json_dumps := json_dumps sample_env;
     mlflow_end_run := mlflow_end_run sample_env |}.

(** * Properties *)

(** ** Slices *)

Lemma slice_to_firstn (A : Type) (k : Z) (l : list A) :
  Np.slice_to k l =
  firstn (if (0 <=? k)%Z then Z.to_nat k else length l - Z.to_nat (- k)) l.
Proof. unfold Np.slice_to. destruct (0 <=? k)%Z; reflexivity. Qed.

Lemma slice_from_skipn (A : Type) (k : Z) (l : list A) :
  Np.slice_from k l =
  skipn (if (0 <=? k)%Z then Z.to_nat k else length l - Z.to_nat (- k)) l.
Proof. unfold Np.slice_from. destruct (0 <=? k)%Z; reflexivity. Qed.

Lemma slice_to_from (A : Type) (k : Z) (l : list A) :
  Np.slice_to k l ++ Np.slice_from k l = l.
Proof. rewrite slice_to_firstn, slice_from_skipn. apply firstn_skipn. Qed.

(** ** The discount *)

Lemma ln2_pos : (0 < ln 2)%R.
Proof. rewrite <- ln_1. apply ln_increasing; lra. Qed.

Lemma log2_ge_1 (x : R) : (2 <= x)%R -> (1 <= Np.log2 x)%R.
Proof.
  intros Hx. unfold Np.log2.
  assert (H2 := ln2_pos).
  assert (Hle : (ln 2 <= ln x)%R).
  { destruct Hx as [Hlt | Heq].
    - left. apply ln_increasing; lra.
    - right. now rewrite Heq. }
  apply Rmult_le_reg_r with (r := ln 2); [assumption|].
  unfold Rdiv. rewrite Rmult_assoc, Rinv_l by lra. lra.
Qed.

Lemma log2_mono (x y : R) : (0 < x)%R -> (x <= y)%R -> (Np.log2 x <= Np.log2 y)%R.
Proof.
  intros Hx Hxy. unfold Np.log2, Rdiv.
  apply Rmult_le_compat_r.
  - left. apply Rinv_0_lt_compat, ln2_pos.
  - destruct Hxy as [Hlt | Heq].
    + left. apply ln_increasing; assumption.
    + right. now rewrite Heq.
Qed.

Lemma arg_ge_2 (i : nat) : (2 <= INR i + 2)%R.
Proof. assert (H := pos_INR i). lra. Qed.

Lemma discount_pos (i : nat) : (0 < discount i)%R.
Proof.
  unfold discount. assert (H := log2_ge_1 (arg_ge_2 i)).
  apply Rdiv_lt_0_compat; lra.
Qed.

Lemma discount_0 : discount 0 = 1%R.
Proof.
  unfold discount, Np.log2. simpl INR.
  replace (0 + 2)%R with 2%R by lra.
  assert (H := ln2_pos). field. lra.
Qed.

Lemma discount_antitone (i j : nat) : (i <= j)%nat -> (discount j <= discount i)%R.
Proof.
  intros Hij. unfold discount.
  assert (Hi := log2_ge_1 (arg_ge_2 i)).
  assert (Hm : (Np.log2 (INR i + 2) <= Np.log2 (INR j + 2))%R).
  { apply log2_mono.
    - assert (H := arg_ge_2 i). lra.
    - apply le_INR in Hij. lra. }
  unfold Rdiv. rewrite !Rmult_1_l.
  apply Rinv_le_contravar; lra.
Qed.

(** ** The discounted gain *)

Lemma fold_gain (l : list Z) (i : nat) (acc : R) :
  fold_left Rplus
    (map (fun p => discount (fst p))
         (filter (fun p : nat * Z => (snd p <=? 2)%Z) (combine (seq i (length l)) l)))
    acc
  = (acc + gain_from i l)%R.
Proof.
  revert i acc. induction l as [| rel rest IH]; intros i acc; simpl.
  - lra.
  - destruct (rel <=? 2)%Z; simpl; rewrite IH; lra.
Qed.

Lemma discounted_gain_from (l : list Z) : discounted_gain l = gain_from 0 l.
Proof. unfold discounted_gain, Np.enumerate. rewrite fold_gain. lra. Qed.

Lemma gain_from_nonneg (l : list Z) (i : nat) : (0 <= gain_from i l)%R.
Proof.
  revert i. induction l as [| rel rest IH]; intros i; simpl.
  - lra.
  - specialize (IH (S i)). assert (H := discount_pos i).
    destruct (rel <=? 2)%Z; lra.
Qed.

Lemma discount_sum_nonneg (i n : nat) : (0 <= discount_sum i n)%R.
Proof.
  revert i. induction n as [| n IH]; intros i; simpl.
  - lra.
  - specialize (IH (S i)). assert (H := discount_pos i). lra.
Qed.

Lemma discount_sum_shift (i n : nat) :
  (discount_sum (S i) n <= discount_sum i n)%R.
Proof.
  revert i. induction n as [| n IH]; intros i; simpl.
  - lra.
  - specialize (IH (S i)).
    assert (H := discount_antitone (i := i) (j := S i)).
    assert (i <= S i)%nat by lia. specialize (H H0). lra.
Qed.

Lemma discount_sum_mono (i n m : nat) :
  (n <= m)%nat -> (discount_sum i n <= discount_sum i m)%R.
Proof.
  revert i m. induction n as [| n IH]; intros i m Hnm.
  - apply discount_sum_nonneg.
  - destruct m as [| m]; [lia|]. simpl.
    assert (H : (n <= m)%nat) by lia. specialize (IH (S i) m H). lra.
Qed.

Lemma discount_sum_pos (i n : nat) : (0 < n)%nat -> (0 < discount_sum i n)%R.
Proof.
  destruct n as [| n]; [lia|]. intros _. simpl.
  assert (H := discount_pos i). assert (H' := discount_sum_nonneg (S i) n). lra.
Qed.

Lemma placed_cons (r : Z) (l : list Z) :
  placed (r :: l) = ((if (r <=? 2)%Z then 1 else 0) + placed l)%nat.
Proof. unfold placed. simpl. destruct (r <=? 2)%Z; reflexivity. Qed.

(** Whatever the order, the gain of a list is at most the sum of as many
    leading discounts as the list has placed entries. *)
Lemma gain_from_le (l : list Z) (i : nat) :
  (gain_from i l <= discount_sum i (placed l))%R.
Proof.
  revert i. induction l as [| rel rest IH]; intros i.
  - simpl. lra.
  - rewrite placed_cons. simpl gain_from. specialize (IH (S i)).
    destruct (rel <=? 2)%Z; simpl.
    + lra.
    + assert (H := discount_sum_shift i (placed rest)). lra.
Qed.

Lemma placed_none (l : list Z) :
  Forall (fun r => (2 < r)%Z) l -> placed l = 0%nat.
Proof.
  induction 1 as [| r l Hr _ IH]; [reflexivity|].
  rewrite placed_cons, IH.
  destruct (Z.leb_spec r 2); [lia | reflexivity].
Qed.

Lemma gain_from_unplaced (l : list Z) (i : nat) :
  placed l = 0%nat -> gain_from i l = 0%R.
Proof.
  revert i. induction l as [| rel rest IH]; intros i H; [reflexivity|].
  rewrite placed_cons in H. simpl.
  destruct (rel <=? 2)%Z; [discriminate|].
  rewrite IH by assumption. lra.
Qed.

(** In ascending order the placed entries come first, and the gain is
    exactly that sum. *)
Lemma gain_from_sorted (l : list Z) (i : nat) :
  StronglySorted Z.le l -> gain_from i l = discount_sum i (placed l).
Proof.
  intros Hs. revert i. induction Hs as [| r l Hs IH Hall]; intros i.
  - reflexivity.
  - rewrite placed_cons. simpl gain_from.
    destruct (Z.leb_spec r 2) as [Hr | Hr]; simpl.
    + now rewrite IH.
    + assert (Hp : placed l = 0%nat).
      { apply placed_none. eapply Forall_impl; [|exact Hall].
        intros a Ha. simpl in Ha. lia. }
      rewrite Hp, gain_from_unplaced by assumption. simpl. lra.
Qed.

Lemma gain_pos_iff (l : list Z) (i : nat) :
  (0 < gain_from i l)%R <-> (0 < placed l)%nat.
Proof.
  split.
  - intros H. destruct (placed l) eqn:E; [|lia].
    rewrite gain_from_unplaced in H by assumption. lra.
  - revert i. induction l as [| rel rest IH]; intros i H.
    + unfold placed in H. simpl in H. lia.
    + rewrite placed_cons in H. simpl.
      assert (Hd := discount_pos i). assert (Hg := gain_from_nonneg rest (S i)).
      destruct (rel <=? 2)%Z.
      * lra.
      * specialize (IH (S i)). simpl in H. specialize (IH H). lra.
Qed.

(** ** Sorting *)

Lemma insert_Z_perm (x : Z) (l : list Z) : Permutation (Np.insert_Z x l) (x :: l).
Proof.
  induction l as [| y l IH]; simpl.
  - apply Permutation_refl.
  - destruct (x <=? y)%Z.
    + apply Permutation_refl.
    + eapply Permutation_trans; [apply perm_skip, IH | apply perm_swap].
Qed.

Lemma sort_perm (a : list Z) : Permutation (Np.sort a) a.
Proof.
  induction a as [| x a IH]; simpl.
  - apply perm_nil.
  - eapply Permutation_trans; [apply insert_Z_perm | apply perm_skip, IH].
Qed.

Lemma insert_Z_sorted (x : Z) (l : list Z) :
  StronglySorted Z.le l -> StronglySorted Z.le (Np.insert_Z x l).
Proof.
  induction 1 as [| y l Hs IH Hall]; simpl.
  - constructor; constructor.
  - destruct (Z.leb_spec x y) as [Hxy | Hxy].
    + constructor.
      * constructor; assumption.
      * constructor; [assumption|].
        eapply Forall_impl; [|exact Hall]. intros a Ha. simpl in Ha. lia.
    + constructor; [assumption|].
      eapply Permutation_Forall; [apply Permutation_sym, insert_Z_perm|].
      constructor; [lia | assumption].
Qed.

Lemma sort_sorted (a : list Z) : StronglySorted Z.le (Np.sort a).
Proof.
  induction a as [| x a IH]; simpl.
  - constructor.
  - apply insert_Z_sorted, IH.
Qed.

Lemma firstn_sorted (n : nat) (l : list Z) :
  StronglySorted Z.le l -> StronglySorted Z.le (firstn n l).
Proof.
  intros Hs. revert n. induction Hs as [| x l Hs IH Hall]; intros [| n]; simpl;
    try constructor.
  - apply IH.
  - apply Forall_forall. intros a Ha.
    rewrite Forall_forall in Hall. apply Hall.
    rewrite <- (firstn_skipn n l). apply in_or_app. now left.
Qed.

Lemma placed_perm (l l' : list Z) : Permutation l l' -> placed l = placed l'.
Proof.
  induction 1 as [| x l l' _ IH | x y l | l l' l'' _ IH1 _ IH2].
  - reflexivity.
  - rewrite !placed_cons. now rewrite IH.
  - rewrite !placed_cons. lia.
  - congruence.
Qed.

Lemma placed_le_length (l : list Z) : (placed l <= length l)%nat.
Proof. unfold placed. apply filter_length_le. Qed.

Lemma placed_firstn_le (n : nat) (l : list Z) :
  (placed (firstn n l) <= Nat.min n (placed l))%nat.
Proof.
  revert n. induction l as [| r l IH]; intros [| n]; simpl firstn;
    rewrite ?placed_cons; try (unfold placed; simpl; lia).
  specialize (IH n). destruct (r <=? 2)%Z; lia.
Qed.

Lemma placed_firstn_sorted (n : nat) (l : list Z) :
  StronglySorted Z.le l -> placed (firstn n l) = Nat.min n (placed l).
Proof.
  intros Hs. revert n. induction Hs as [| r l Hs IH Hall]; intros [| n];
    simpl firstn; rewrite ?placed_cons; try (unfold placed; simpl; lia).
  destruct (Z.leb_spec r 2) as [Hr | Hr].
  - rewrite IH. simpl. lia.
  - assert (Hp : placed l = 0%nat).
    { apply placed_none. eapply Forall_impl; [|exact Hall].
      intros a Ha. simpl in Ha. lia. }
    assert (H := placed_firstn_le n l). lia.
Qed.

Lemma insert_key_perm (x : Q * nat) (l : list (Q * nat)) :
  Permutation (Np.insert_key x l) (x :: l).
Proof.
  induction l as [| y l IH]; simpl.
  - apply Permutation_refl.
  - destruct (Qle_bool (fst x) (fst y)).
    + apply Permutation_refl.
    + eapply Permutation_trans; [apply perm_skip, IH | apply perm_swap].
Qed.

Lemma sort_keys_perm (l : list (Q * nat)) : Permutation (Np.sort_keys l) l.
Proof.
  induction l as [| x l IH]; simpl.
  - apply perm_nil.
  - eapply Permutation_trans; [apply insert_key_perm | apply perm_skip, IH].
Qed.

Lemma snd_combine_seq (A : Type) (keys : list A) (i : nat) :
  map snd (combine keys (seq i (length keys))) = seq i (length keys).
Proof.
  revert i. induction keys as [| x keys IH]; intros i; simpl.
  - reflexivity.
  - now rewrite IH.
Qed.

(** [np.argsort] returns a permutation of the indices. *)
Lemma argsort_perm (keys : list Q) :
  Permutation (Np.argsort keys) (seq 0 (length keys)).
Proof.
  unfold Np.argsort.
  rewrite <- (snd_combine_seq keys 0) at 2.
  apply Permutation_map, sort_keys_perm.
Qed.

Lemma map_at_index_seq (a : list Z) :
  map (at_index a) (seq 0 (length a)) = a.
Proof.
  unfold at_index.
  induction a as [| x a IH]; simpl; [reflexivity|].
  f_equal. rewrite <- seq_shift, map_map. exact IH.
Qed.

Lemma take_in_bounds (a : list Z) (indices : list nat) :
  Forall (fun i => (i < length a)%nat) indices ->
  Np.take a indices = Ok (map (at_index a) indices).
Proof.
  induction 1 as [| i rest Hi _ IH]; simpl; [reflexivity|].
  destruct (nth_error a i) eqn:E.
  - rewrite IH. do 2 f_equal. unfold at_index.
    symmetry. now apply nth_error_nth.
  - apply nth_error_None in E. lia.
Qed.

Lemma take_out_of_bounds (a : list Z) (indices : list nat) :
  Exists (fun i => (length a <= i)%nat) indices ->
  Np.take a indices = Raise IndexError.
Proof.
  induction 1 as [i rest Hi | i rest _ IH]; simpl.
  - apply nth_error_None in Hi. now rewrite Hi.
  - destruct (nth_error a i); [now rewrite IH | reflexivity].
Qed.

(** ** NDCG@k *)

Lemma firstn_In' (A : Type) (x : A) (n : nat) (l : list A) :
  In x (firstn n l) -> In x l.
Proof.
  intros H. rewrite <- (firstn_skipn n l). apply in_or_app. now left.
Qed.

Lemma slice_to_map (A B : Type) (f : A -> B) (k : Z) (l : list A) :
  Np.slice_to k (map f l) = map f (Np.slice_to k l).
Proof.
  rewrite !slice_to_firstn, length_map. apply firstn_map.
Qed.

Lemma ranked_all_perm (y_true : list Z) (y_pred : list Q) :
  length y_true = length y_pred ->
  Permutation (ranked_all y_true y_pred) y_true.
Proof.
  intros Hlen. unfold ranked_all.
  rewrite <- (map_at_index_seq y_true) at 2.
  apply Permutation_map.
  rewrite Hlen, <- (length_map Qopp). apply argsort_perm.
Qed.

(** With vectors of equal length the fancy indexing never fails. *)
Lemma take_ranked (y_true : list Z) (y_pred : list Q) (k : Z) :
  length y_true = length y_pred ->
  Np.take y_true (ranked_indices y_pred k) =
  Ok (Np.slice_to k (ranked_all y_true y_pred)).
Proof.
  intros Hlen. unfold ranked_all. rewrite slice_to_map.
  apply take_in_bounds. unfold ranked_indices.
  apply Forall_forall. intros i Hi.
  rewrite slice_to_firstn in Hi.
  apply firstn_In' in Hi. rename Hi into Hin.
  apply (Permutation_in _ (argsort_perm _)) in Hin.
  apply in_seq in Hin. rewrite length_map in Hin. lia.
Qed.

Lemma calculate_ndcg_eq (y_true : list Z) (y_pred : list Q) (k : Z) :
  length y_true = length y_pred ->
  calculate_ndcg y_true y_pred k =
  Ok (normalise (discounted_gain (Np.slice_to k (ranked_all y_true y_pred)))
                (discounted_gain (ideal_ranked y_true k))).
Proof. intros Hlen. unfold calculate_ndcg. now rewrite take_ranked. Qed.

Lemma ideal_gain (y_true : list Z) (k : Z) :
  discounted_gain (ideal_ranked y_true k) =
  discount_sum 0 (placed (ideal_ranked y_true k)).
Proof.
  rewrite discounted_gain_from. apply gain_from_sorted.
  unfold ideal_ranked. rewrite slice_to_firstn.
  apply firstn_sorted, sort_sorted.
Qed.

(** Whatever permutation of the indices orders the predictions (so also
    however a sort breaks ties between equal scores), the gain of its first
    [k] entries is at most the ideal one. *)
Lemma gain_any_order (y_true : list Z) (order : list nat) (k : Z) :
  Permutation order (seq 0 (length y_true)) ->
  (discounted_gain (Np.slice_to k (map (at_index y_true) order))
   <= discounted_gain (ideal_ranked y_true k))%R.
Proof.
  intros Hperm.
  assert (Hp : Permutation (map (at_index y_true) order) y_true).
  { rewrite <- (map_at_index_seq y_true) at 2. now apply Permutation_map. }
  rewrite ideal_gain, discounted_gain_from.
  eapply Rle_trans; [apply gain_from_le|].
  apply discount_sum_mono.
  unfold ideal_ranked. rewrite !slice_to_firstn.
  assert (Hl : length (map (at_index y_true) order) = length (Np.sort y_true)).
  { rewrite (Permutation_length Hp).
    symmetry. apply Permutation_length, sort_perm. }
  rewrite Hl.
  set (n := if (0 <=? k)%Z then Z.to_nat k
            else (length (Np.sort y_true) - Z.to_nat (- k))%nat).
  rewrite (placed_firstn_sorted n (sort_sorted y_true)).
  rewrite (placed_perm (sort_perm y_true)).
  rewrite <- (placed_perm Hp).
  apply placed_firstn_le.
Qed.

(** The realized gain never exceeds the ideal one. *)
Lemma dcg_le_idcg (y_true : list Z) (y_pred : list Q) (k : Z) :
  length y_true = length y_pred ->
  (discounted_gain (Np.slice_to k (ranked_all y_true y_pred))
   <= discounted_gain (ideal_ranked y_true k))%R.
Proof.
  intros Hlen. unfold ranked_all. apply gain_any_order.
  rewrite Hlen, <- (length_map Qopp). apply argsort_perm.
Qed.

Lemma normalise_bounds (dcg idcg : R) :
  (0 <= dcg <= idcg)%R -> (0 <= normalise dcg idcg <= 1)%R.
Proof.
  intros [H0 H1]. unfold normalise. destruct (Rlt_dec 0 idcg) as [Hpos | _].
  - split.
    + apply Rmult_le_pos; [assumption|]. left. now apply Rinv_0_lt_compat.
    + apply Rmult_le_reg_r with (r := idcg); [assumption|].
      unfold Rdiv. rewrite Rmult_assoc, Rinv_l by lra. lra.
  - lra.
Qed.

Lemma normalise_same (g : R) : (0 < g)%R -> normalise g g = 1%R.
Proof.
  intros Hg. unfold normalise. destruct (Rlt_dec 0 g); [|contradiction].
  field. lra.
Qed.

Lemma normalise_zero (dcg idcg : R) :
  (0 <= dcg <= idcg)%R -> (normalise dcg idcg = 0%R <-> dcg = 0%R).
Proof.
  intros [H0 H1]. unfold normalise. destruct (Rlt_dec 0 idcg) as [Hpos | Hn].
  - split; intros H.
    + apply Rmult_integral in H. destruct H as [H | H]; [assumption|].
      assert (Hi := Rinv_0_lt_compat _ Hpos). lra.
    + rewrite H. unfold Rdiv. apply Rmult_0_l.
  - split; intros _; lra.
Qed.

Lemma discounted_gain_nonneg (l : list Z) : (0 <= discounted_gain l)%R.
Proof. rewrite discounted_gain_from. apply gain_from_nonneg. Qed.

(** ** The argmax *)

Lemma score_at_app_l (pre rest : list Q) (j : nat) :
  (j < length pre)%nat -> score_at (pre ++ rest) j = score_at pre j.
Proof. intros H. unfold score_at. now apply app_nth1. Qed.

Lemma score_at_app_here (pre rest : list Q) (x : Q) :
  score_at (pre ++ x :: rest) (length pre) = x.
Proof.
  unfold score_at. rewrite app_nth2 by lia. now rewrite Nat.sub_diag.
Qed.

Lemma argmax_scan_first_max (rest pre : list Q) (mp : Q) (best i : nat) :
  i = length pre -> (best < i)%nat -> mp = score_at pre best ->
  (forall j, (j < i)%nat -> score_at pre j <= mp) ->
  (forall j, (j < best)%nat -> score_at pre j < mp) ->
  first_max (pre ++ rest) (Np.argmax_scan mp best i rest).
Proof.
  revert pre mp best i.
  induction rest as [| x rest IH]; intros pre mp best i Hi Hb Hmp Hall Hfirst.
  - simpl. rewrite app_nil_r. subst. repeat split; auto.
  - simpl.
    replace (pre ++ x :: rest) with ((pre ++ [x]) ++ rest)
      by (now rewrite <- app_assoc).
    assert (Hlen : S i = length (pre ++ [x]))
      by (rewrite length_app; simpl; lia).
    assert (Hold : forall j, (j < i)%nat -> score_at (pre ++ [x]) j = score_at pre j)
      by (intros j Hj; apply score_at_app_l; lia).
    assert (Hnew : score_at (pre ++ [x]) i = x)
      by (subst i; apply score_at_app_here).
    destruct (Qle_bool x mp) eqn:E.
    + apply Qle_bool_iff in E.
      apply IH; auto.
      * rewrite Hold by assumption. assumption.
      * intros j Hj. destruct (Nat.eq_dec j i) as [-> | Hne].
        -- now rewrite Hnew.
        -- rewrite Hold by lia. apply Hall. lia.
      * intros j Hj. rewrite Hold by lia. now apply Hfirst.
    + assert (Hlt : mp < x).
      { apply Qnot_le_lt. intros Hle. apply Qle_bool_iff in Hle. congruence. }
      apply IH; auto.
      * intros j Hj. destruct (Nat.eq_dec j i) as [-> | Hne].
        -- rewrite Hnew. apply Qle_refl.
        -- rewrite Hold by lia. apply Qlt_le_weak.
           eapply Qle_lt_trans; [apply Hall; lia | assumption].
      * intros j Hj. rewrite Hold by lia.
        eapply Qle_lt_trans; [apply Hall; lia | assumption].
Qed.

(** On a non-empty array [np.argmax] returns the lowest index of a maximal
    entry. *)
Lemma argmax_first_max (a : list Q) :
  a <> [] -> exists i, Np.argmax a = Ok i /\ first_max a i.
Proof.
  destruct a as [| x rest]; [congruence|]. intros _.
  exists (Np.argmax_scan x 0 1 rest). split; [reflexivity|].
  apply (argmax_scan_first_max rest [x] (mp := x) (best := 0%nat) (i := 1%nat));
    auto.
  - intros j Hj. assert (j = 0%nat) by lia. subst. apply Qle_refl.
  - intros j Hj. lia.
Qed.

Lemma calculate_accuracy_eq (y_true : list Z) (y_pred : list Q) (top1 : nat) :
  Np.argmax y_pred = Ok top1 -> (top1 < length y_true)%nat ->
  calculate_accuracy y_true y_pred =
  Ok (if (at_index y_true top1 <=? 2)%Z then 1%R else 0%R).
Proof.
  intros Ha Hlt. unfold calculate_accuracy. rewrite Ha.
  destruct (nth_error y_true top1) eqn:E.
  - unfold at_index. now rewrite (nth_error_nth _ _ 0%Z E).
  - apply nth_error_None in E. lia.
Qed.

(** ** Claims on the metrics *)

Lemma Ok_inj (A : Type) (a b : A) : Ok a = Ok b -> a = b.
Proof. intros H. now inversion H. Qed.

Lemma ideal_gain_pos (y_true : list Z) (k : Z) :
  (1 <= k <= Z.of_nat (placed y_true))%Z ->
  (0 < discounted_gain (ideal_ranked y_true k))%R.
Proof.
  intros Hk. rewrite ideal_gain. apply discount_sum_pos.
  unfold ideal_ranked. rewrite slice_to_firstn.
  rewrite (placed_firstn_sorted _ (sort_sorted y_true)).
  rewrite (placed_perm (sort_perm y_true)).
  destruct (Z.leb_spec 0 k); lia.
Qed.

Lemma ndcg_of_match (y_true : list Z) (y_pred : list Q) (k : Z) :
  top_k_matches y_true y_pred k ->
  (1 <= k <= Z.of_nat (placed y_true))%Z ->
  calculate_ndcg y_true y_pred k = Ok 1%R.
Proof.
  intros Hm Hk. unfold calculate_ndcg. rewrite Hm. f_equal.
  apply normalise_same. now apply ideal_gain_pos.
Qed.


(** C2, as stated, fails in one direction: the result can be 0 while the
    ideal gain is positive, when none of the [k] highest-scored entries is
    placed. *)
Lemma ndcg_zero_with_positive_ideal :
  length [1; 4]%Z = length [0; 1]%Q /\
  calculate_ndcg [1; 4]%Z [0; 1]%Q 1 = Ok 0%R /\
  discounted_gain (ideal_ranked [1; 4]%Z 1) <> 0%R.
Proof.
  split; [reflexivity|]. split.
  - rewrite calculate_ndcg_eq by reflexivity.
    change (Np.slice_to 1 (ranked_all [1; 4]%Z [0; 1]%Q)) with [4%Z].
    change (ideal_ranked [1; 4]%Z 1) with [1%Z].
    rewrite !discounted_gain_from. simpl. rewrite discount_0.
    unfold normalise. destruct (Rlt_dec 0 (1 + 0)); f_equal; lra.
  - change (ideal_ranked [1; 4]%Z 1) with [1%Z].
    rewrite discounted_gain_from. simpl. rewrite discount_0. lra.
Qed.

(** C2 (amended): [calculate_ndcg] returns 0 when no true rank is at most
    2, and more generally whenever the ideal gain over the [k] best true
    ranks is 0; it returns 0 exactly when the realized gain over the [k]
    highest-scored entries is 0. *)
Theorem ndcg_zero (y_true : list Z) (y_pred : list Q) (k : Z) :
  length y_true = length y_pred ->
  (Forall (fun r => (2 < r)%Z) y_true ->
   calculate_ndcg y_true y_pred k = Ok 0%R) /\
  (discounted_gain (ideal_ranked y_true k) = 0%R ->
   calculate_ndcg y_true y_pred k = Ok 0%R) /\
  exists ranked_true,
    Np.take y_true (ranked_indices y_pred k) = Ok ranked_true /\
    (calculate_ndcg y_true y_pred k = Ok 0%R <->
     discounted_gain ranked_true = 0%R).
Proof.
  intros Hlen.
  assert (Hle := dcg_le_idcg y_true y_pred k Hlen).
  assert (H0 := discounted_gain_nonneg (Np.slice_to k (ranked_all y_true y_pred))).
  assert (Hideal : discounted_gain (ideal_ranked y_true k) = 0%R ->
                   calculate_ndcg y_true y_pred k = Ok 0%R).
  { intros Hi. rewrite calculate_ndcg_eq by assumption. f_equal.
    apply normalise_zero; lra. }
  split; [|split].
  - intros Hall. apply Hideal. rewrite ideal_gain.
    replace (placed (ideal_ranked y_true k)) with 0%nat; [reflexivity|].
    symmetry. unfold ideal_ranked. rewrite slice_to_firstn.
    assert (Hp := placed_firstn_le
                    (if (0 <=? k)%Z then Z.to_nat k
                     else (length (Np.sort y_true) - Z.to_nat (- k))%nat)
                    (Np.sort y_true)).
    rewrite (placed_perm (sort_perm y_true)), (placed_none Hall) in Hp. lia.
  - exact Hideal.
  - exists (Np.slice_to k (ranked_all y_true y_pred)).
    split; [now apply take_ranked|].
    rewrite calculate_ndcg_eq by assumption. split; intros H.
    + apply Ok_inj in H. apply normalise_zero in H; [assumption | lra].
    + f_equal. apply normalise_zero; [lra | assumption].
Qed.

Lemma ndcg_zero_witness :
  (Forall (fun r => (2 < r)%Z) [3; 4]%Z ->
   calculate_ndcg [3; 4]%Z [1; 2]%Q 2 = Ok 0%R) /\
  (discounted_gain (ideal_ranked [3; 4]%Z 2) = 0%R ->
   calculate_ndcg [3; 4]%Z [1; 2]%Q 2 = Ok 0%R) /\
  exists ranked_true,
    Np.take [3; 4]%Z (ranked_indices [1; 2]%Q 2) = Ok ranked_true /\
    (calculate_ndcg [3; 4]%Z [1; 2]%Q 2 = Ok 0%R <->
     discounted_gain ranked_true = 0%R).
Proof. apply ndcg_zero. reflexivity. Defined.

(** C9: for vectors of equal length and every [k >= 1] the realized gain
    over the [k] highest-scored entries is at most the ideal gain over the
    [k] best true ranks, and [calculate_ndcg] returns a value in [0, 1]. *)
Theorem ndcg_in_unit_interval (y_true : list Z) (y_pred : list Q) (k : Z) :
  length y_true = length y_pred -> (1 <= k)%Z ->
  exists ranked_true v,
    Np.take y_true (ranked_indices y_pred k) = Ok ranked_true /\
    (discounted_gain ranked_true <= discounted_gain (ideal_ranked y_true k))%R /\
    calculate_ndcg y_true y_pred k = Ok v /\
    (0 <= v <= 1)%R.
Proof.
  intros Hlen _.
  exists (Np.slice_to k (ranked_all y_true y_pred)).
  eexists. split; [now apply take_ranked|].
  assert (Hle := dcg_le_idcg y_true y_pred k Hlen).
  split; [exact Hle|]. split; [now apply calculate_ndcg_eq|].
  apply normalise_bounds. split; [apply discounted_gain_nonneg | exact Hle].
Qed.

Lemma ndcg_in_unit_interval_witness :
  exists ranked_true v,
    Np.take [1; 4; 2]%Z (ranked_indices [1 # 2; 3; 0]%Q 2) = Ok ranked_true /\
    (discounted_gain ranked_true
     <= discounted_gain (ideal_ranked [1; 4; 2]%Z 2))%R /\
    calculate_ndcg [1; 4; 2]%Z [1 # 2; 3; 0]%Q 2 = Ok v /\
    (0 <= v <= 1)%R.
Proof. apply ndcg_in_unit_interval; [reflexivity | lia]. Defined.

(** C3: on non-empty vectors of equal length [calculate_accuracy] returns
    1 if and only if the entry at the argmax index of [y_pred] (the lowest
    index of a maximal score, over the whole input) has true rank at most
    2, and returns 0 otherwise. *)
Theorem accuracy_top1 (y_true : list Z) (y_pred : list Q) :
  y_true <> [] -> length y_true = length y_pred ->
  exists top1,
    Np.argmax y_pred = Ok top1 /\
    first_max y_pred top1 /\
    (calculate_accuracy y_true y_pred = Ok 1%R <->
     (at_index y_true top1 <= 2)%Z) /\
    (calculate_accuracy y_true y_pred = Ok 0%R <->
     (2 < at_index y_true top1)%Z).
Proof.
  intros Hne Hlen.
  assert (Hp : y_pred <> []).
  { intros ->. destruct y_true; [congruence | discriminate]. }
  destruct (argmax_first_max Hp) as (top1 & Ha & Hmax).
  exists top1. split; [assumption|]. split; [assumption|].
  assert (Hlt : (top1 < length y_true)%nat) by (destruct Hmax; lia).
  rewrite (@calculate_accuracy_eq y_true y_pred top1 Ha Hlt).
  destruct (Z.leb_spec (at_index y_true top1) 2) as [Hr | Hr].
  - split; split; intros H; try reflexivity; try lia.
    apply Ok_inj in H. lra.
  - split; split; intros H; try reflexivity; try lia.
    apply Ok_inj in H. lra.
Qed.

Lemma accuracy_top1_witness :
  exists top1,
    Np.argmax [1 # 2; 3; 3; 0]%Q = Ok top1 /\
    first_max [1 # 2; 3; 3; 0]%Q top1 /\
    (calculate_accuracy [4; 1; 3; 2]%Z [1 # 2; 3; 3; 0]%Q = Ok 1%R <->
     (at_index [4; 1; 3; 2]%Z top1 <= 2)%Z) /\
    (calculate_accuracy [4; 1; 3; 2]%Z [1 # 2; 3; 3; 0]%Q = Ok 0%R <->
     (2 < at_index [4; 1; 3; 2]%Z top1)%Z).
Proof. apply accuracy_top1; [discriminate | reflexivity]. Defined.

(** The value is one scalar for the whole input: over two races taken
    together it is 1, although the top-scored entry of the second race alone
    is not placed (a per-race rate would be 1/2). *)
Example accuracy_over_two_races :
  calculate_accuracy ([1; 4] ++ [4; 1])%Z ([9 # 10; 1 # 10] ++ [8 # 10; 2 # 10])%Q
  = Ok 1%R /\
  calculate_accuracy [1; 4]%Z [9 # 10; 1 # 10]%Q = Ok 1%R /\
  calculate_accuracy [4; 1]%Z [8 # 10; 2 # 10]%Q = Ok 0%R.
Proof. repeat split. Qed.



(** Ties go to the lowest index: with the two top scores equal, the first
    decides, here an unplaced entry. *)
Example accuracy_tie : calculate_accuracy [3; 1; 1; 1]%Z [2; 2; 1]%Q = Ok 0%R.
Proof. reflexivity. Qed.

(** ** Order-consistent predictions match at every cutoff *)

Lemma insert_key_sorted (x : Q * nat) (l : list (Q * nat)) :
  StronglySorted key_le l -> StronglySorted key_le (Np.insert_key x l).
Proof.
  induction 1 as [| y l Hs IH Hall]; simpl.
  - constructor; constructor.
  - destruct (Qle_bool (fst x) (fst y)) eqn:E.
    + apply Qle_bool_iff in E. constructor.
      * constructor; assumption.
      * constructor; [exact E|].
        eapply Forall_impl; [|exact Hall]. intros a Ha.
        unfold key_le in *. eapply Qle_trans; eassumption.
    + assert (Hlt : fst y < fst x).
      { apply Qnot_le_lt. intros Hle. apply Qle_bool_iff in Hle. congruence. }
      constructor; [assumption|].
      eapply Permutation_Forall; [apply Permutation_sym, insert_key_perm|].
      constructor; [|assumption]. unfold key_le. now apply Qlt_le_weak.
Qed.

Lemma sort_keys_sorted (l : list (Q * nat)) :
  StronglySorted key_le (Np.sort_keys l).
Proof.
  induction l as [| x l IH]; simpl.
  - constructor.
  - apply insert_key_sorted, IH.
Qed.

Lemma combine_seq_keyed (keys : list Q) (pre : list Q) :
  Forall (fun p => fst p = score_at (pre ++ keys) (snd p))
         (combine keys (seq (length pre) (length keys))).
Proof.
  revert pre. induction keys as [| x keys IH]; intros pre; simpl.
  - constructor.
  - constructor.
    + simpl. now rewrite score_at_app_here.
    + specialize (IH (pre ++ [x])).
      rewrite length_app, <- app_assoc in IH. simpl in IH.
      now rewrite Nat.add_1_r in IH.
Qed.

Lemma StronglySorted_map_in (A B : Type) (RA : A -> A -> Prop)
    (RB : B -> B -> Prop) (f : A -> B) (l : list A) :
  (forall x y, In x l -> In y l -> RA x y -> RB (f x) (f y)) ->
  StronglySorted RA l -> StronglySorted RB (map f l).
Proof.
  intros Hf Hs. induction Hs as [| a l Hs IH Hall]; simpl.
  - constructor.
  - constructor.
    + apply IH. intros x y Hx Hy. apply Hf; now right.
    + apply Forall_forall. intros b Hb. apply in_map_iff in Hb.
      destruct Hb as (y & <- & Hy). rewrite Forall_forall in Hall.
      apply Hf; [now left | now right | now apply Hall].
Qed.

(** [np.argsort] orders the indices by ascending key. *)
Lemma argsort_sorted (keys : list Q) :
  StronglySorted (fun i j => score_at keys i <= score_at keys j)
                 (Np.argsort keys).
Proof.
  unfold Np.argsort.
  assert (Hk : Forall (fun p => fst p = score_at keys (snd p))
                      (Np.sort_keys (combine keys (seq 0 (length keys))))).
  { eapply Permutation_Forall; [apply Permutation_sym, sort_keys_perm|].
    apply (combine_seq_keyed keys []). }
  rewrite Forall_forall in Hk.
  eapply StronglySorted_map_in; [|apply sort_keys_sorted].
  intros x y Hx Hy Hxy. unfold key_le in Hxy.
  now rewrite <- (Hk x Hx), <- (Hk y Hy).
Qed.

Lemma score_at_opp (a : list Q) (i : nat) :
  (i < length a)%nat -> score_at (map Qopp a) i = - score_at a i.
Proof.
  intros Hi. unfold score_at.
  rewrite (nth_indep _ 0 (- 0)) by (now rewrite length_map).
  apply map_nth.
Qed.

Lemma sorted_perm_unique (l1 l2 : list Z) :
  StronglySorted Z.le l1 -> StronglySorted Z.le l2 -> Permutation l1 l2 ->
  l1 = l2.
Proof.
  intros H1. revert l2. induction H1 as [| a l1 Hs1 IH Hall1]; intros l2 H2 Hp.
  - apply Permutation_nil in Hp. now subst.
  - destruct H2 as [| b l2 Hs2 Hall2].
    + apply Permutation_sym, Permutation_nil in Hp. discriminate.
    + assert (Hab : a = b).
      { rewrite Forall_forall in Hall1, Hall2.
        assert (Hb : In b (a :: l1))
          by (apply (Permutation_in _ (Permutation_sym Hp)); now left).
        assert (Ha : In a (b :: l2))
          by (apply (Permutation_in _ Hp); now left).
        destruct Hb as [Hb | Hb]; [now subst|].
        destruct Ha as [Ha | Ha]; [now subst|].
        specialize (Hall1 _ Hb). specialize (Hall2 _ Ha). lia. }
      subst b. f_equal. apply IH; [assumption|].
      eapply Permutation_cons_inv; eassumption.
Qed.

(** When a lower true rank always has a strictly higher score, the true
    ranks in predicted order are the sorted true ranks, so the top [k]
    match at every cutoff. *)
Lemma order_consistent_matches (y_true : list Z) (y_pred : list Q) (k : Z) :
  length y_true = length y_pred ->
  order_consistent y_true y_pred ->
  top_k_matches y_true y_pred k.
Proof.
  intros Hlen Hc. unfold top_k_matches. rewrite take_ranked by assumption.
  unfold ideal_ranked. do 2 f_equal.
  apply sorted_perm_unique.
  - unfold ranked_all.
    eapply StronglySorted_map_in; [|apply argsort_sorted].
    intros i j Hi Hj Hij. simpl in Hij.
    apply (Permutation_in _ (argsort_perm _)), in_seq in Hi.
    apply (Permutation_in _ (argsort_perm _)), in_seq in Hj.
    rewrite length_map in Hi, Hj.
    rewrite !score_at_opp in Hij by lia.
    apply Qopp_le_compat in Hij. rewrite !Qopp_involutive in Hij.
    destruct (Z.le_gt_cases (at_index y_true i) (at_index y_true j))
      as [Hle | Hgt]; [assumption|].
    exfalso. assert (Hlt : score_at y_pred i < score_at y_pred j)
      by (apply Hc; lia).
    apply (Qlt_irrefl (score_at y_pred i)).
    eapply Qlt_le_trans; eassumption.
  - apply sort_sorted.
  - eapply Permutation_trans; [now apply ranked_all_perm|].
    apply Permutation_sym, sort_perm.
Qed.

(** The same holds for any order of the indices by descending score,
    however it places equal scores: the stable order of [Np.argsort] is one
    of them, the order of NumPy's default sort another. *)
Lemma order_consistent_any_argsort (y_true : list Z) (y_pred : list Q)
    (order : list nat) (k : Z) :
  length y_true = length y_pred ->
  order_consistent y_true y_pred ->
  Permutation order (seq 0 (length y_pred)) ->
  StronglySorted (fun i j => score_at y_pred j <= score_at y_pred i) order ->
  Np.take y_true (Np.slice_to k order) = Ok (ideal_ranked y_true k).
Proof.
  intros Hlen Hc Hperm Hsorted.
  assert (Hin : forall i, In i order -> (i < length y_true)%nat).
  { intros i Hi. apply (Permutation_in _ Hperm), in_seq in Hi. lia. }
  rewrite take_in_bounds.
  - rewrite <- slice_to_map. unfold ideal_ranked. do 2 f_equal.
    apply sorted_perm_unique.
    + eapply StronglySorted_map_in; [|exact Hsorted].
      intros i j Hi Hj Hij. simpl in Hij.
      destruct (Z.le_gt_cases (at_index y_true i) (at_index y_true j))
        as [Hle | Hgt]; [assumption|].
      exfalso. assert (Hlt : score_at y_pred i < score_at y_pred j)
        by (apply Hc; auto).
      apply (Qlt_irrefl (score_at y_pred i)).
      eapply Qlt_le_trans; eassumption.
    + apply sort_sorted.
    + eapply Permutation_trans; [|apply Permutation_sym, sort_perm].
      rewrite <- (map_at_index_seq y_true) at 2.
      apply Permutation_map. now rewrite Hlen.
  - apply Forall_forall. intros i Hi. apply Hin.
    rewrite slice_to_firstn in Hi. now apply firstn_In' in Hi.
Qed.



(** X19: when a lower true rank always has a strictly higher score,
    [calculate_ndcg] returns 1 at every cutoff from 1 to the number of
    placed entries. *)
Corollary ndcg_order_consistent (y_true : list Z) (y_pred : list Q) (k : Z) :
  length y_true = length y_pred ->
  order_consistent y_true y_pred ->
  (1 <= k <= Z.of_nat (placed y_true))%Z ->
  calculate_ndcg y_true y_pred k = Ok 1%R.
Proof.
  intros Hlen Hc Hk. apply ndcg_of_match; [|assumption].
  now apply order_consistent_matches.
Qed.

(** ** Loading the data *)

Lemma load_data_body_cases (env : Env) (data_path : string) :
  match read_csv env data_path with
  | Raise e =>
      load_data_body env data_path = (Raises (Exception e), [ReadCsv data_path])
  | Ok df =>
      match rank df with
      | None =>
          load_data_body env data_path =
          (Raises (Exception (KeyError "rank")), [ReadCsv data_path])
      | Some y =>
          load_data_body env data_path =
          (Returns (features df, y, option_map group_sizes (race_id df)),
           [ReadCsv data_path])
      end
  end.
Proof.
  unfold load_data_body.
  destruct (read_csv env data_path) as [df | e]; simpl; [|reflexivity].
  destruct (rank df) as [y |]; simpl; [|reflexivity].
  destruct (race_id df); reflexivity.
Qed.

(** The body of [load_data] raises nothing but exceptions. *)
Lemma load_data_body_raises (env : Env) (data_path : string) (s : signal) :
  fst (load_data_body env data_path) = Raises s -> exists e, s = Exception e.
Proof.
  assert (H := load_data_body_cases env data_path).
  destruct (read_csv env data_path) as [df | e].
  - destruct (rank df); rewrite H; simpl; intros E; inversion E; eauto.
  - rewrite H. simpl. intros E. inversion E. eauto.
Qed.

(** C8: [load_data] raises if and only if its [try] block does, that is when
    reading the file raises or the [rank] column is missing; it then prints
    the diagnostic to standard error after the failed step and re-raises the
    very exception of the block; otherwise it prints nothing and returns. *)
Theorem load_data_reraises (env : Env) (data_path : string) :
  ((exists s, fst (load_data env data_path) = Raises s) <->
   (exists s, fst (load_data_body env data_path) = Raises s)) /\
  ((exists s, fst (load_data_body env data_path) = Raises s) <->
   ((exists e, read_csv env data_path = Raise e) \/
    (exists df, read_csv env data_path = Ok df /\ rank df = None))) /\
  (forall e t, load_data_body env data_path = (Raises (Exception e), t) ->
     load_data env data_path =
     (Raises (Exception e), t ++ [load_diagnostic e])) /\
  (forall v t, load_data_body env data_path = (Returns v, t) ->
     load_data env data_path = (Returns v, t)).
Proof.
  assert (H := load_data_body_cases env data_path).
  unfold load_data, load_diagnostic.
  destruct (read_csv env data_path) as [df | e0].
  - destruct (rank df) as [y |] eqn:Ey; rewrite H; simpl;
      (split; [|split; [|split]]).
    + split; intros [s Hs]; discriminate.
    + split.
      * intros [s Hs]; discriminate.
      * intros [[e He] | (df' & Hdf & Hr)]; [discriminate|].
        inversion Hdf; subst. congruence.
    + intros e t E. discriminate.
    + intros v t E. inversion E; subst. reflexivity.
    + split; intros _; eexists; reflexivity.
    + split; [|intros _; eexists; reflexivity].
      intros _. right. exists df. split; [reflexivity | assumption].
    + intros e t E. inversion E; subst. reflexivity.
    + intros v t E. discriminate.
  - rewrite H. simpl. split; [|split; [|split]].
    + split; intros _; eexists; reflexivity.
    + split; [|intros _; eexists; reflexivity].
      intros _. left. eexists; reflexivity.
    + intros e t E. inversion E; subst. reflexivity.
    + intros v t E. discriminate.
Qed.

Example load_data_missing_file :
  load_data missing_file_env "races.csv" =
  (Raises (Exception (LibraryError "FileNotFoundError" "No such file or directory")),
   [ReadCsv "races.csv";
    Print Stderr (Line "Error loading data: No such file or directory")]).
Proof. reflexivity. Qed.

Example load_data_sample :
  load_data sample_env "races.csv" =
  (Returns (features sample_frame, [1; 2; 4; 3; 1; 4]%Z, Some [3; 3]%Z),
   [ReadCsv "races.csv"]).
Proof. reflexivity. Qed.

(** ** The command line *)

(** C7: with no positional argument the [__main__] block prints the usage
    line to standard error and exits with status 1; nothing else is called,
    so the pipeline does not run.  With the imports succeeding this is the
    whole run of the script. *)
Theorem main_usage (env : Env) (argv : list string) :
  (length argv < 2)%nat ->
  main env argv = (Raises (SystemExit 1), [usage]) /\
  exit_status (main env argv) = 1%Z /\
  (import_packages env = None ->
   script env argv = (Raises (SystemExit 1), [usage])) /\
  exit_status (script env argv) = 1%Z.
Proof.
  intros Hlen.
  assert (Hm : main env argv = (Raises (SystemExit 1), [usage])).
  { unfold main. apply Nat.ltb_lt in Hlen. rewrite Hlen. reflexivity. }
  split; [exact Hm|]. split; [now rewrite Hm|].
  unfold script. destruct (import_packages env).
  - split; [discriminate | reflexivity].
  - split; [intros _; exact Hm | now rewrite Hm].
Qed.

Lemma main_usage_witness :
  main sample_env ["train_catboost.py"] = (Raises (SystemExit 1), [usage]) /\
  exit_status (main sample_env ["train_catboost.py"]) = 1%Z /\
  (import_packages sample_env = None ->
   script sample_env ["train_catboost.py"] = (Raises (SystemExit 1), [usage])) /\
  exit_status (script sample_env ["train_catboost.py"]) = 1%Z.
Proof. apply main_usage. simpl. lia. Defined.

(** ** Traces of the combinators *)

Section Emits.
Variable P : event -> Prop.

Lemma emits_ret (A : Type) (a : A) : emits_only P (ret a).
Proof. constructor. Qed.

Lemma emits_bind (A B : Type) (c : Prog A) (f : A -> Prog B) :
  emits_only P c -> (forall a, emits_only P (f a)) -> emits_only P (bind c f).
Proof.
  unfold emits_only, bind. intros Hc Hf.
  destruct c as [[a | s] t]; simpl in *; [|assumption].
  specialize (Hf a). destruct (f a) as [r t']. simpl in *.
  apply Forall_app. now split.
Qed.

Lemma emits_call (A : Type) (ev : event) (r : res A) :
  P ev -> emits_only P (call ev r).
Proof.
  intros H. unfold emits_only, call. destruct r; simpl; now constructor.
Qed.

Lemma emits_lift (A : Type) (r : res A) : emits_only P (lift r).
Proof. unfold emits_only, lift. destruct r; constructor. Qed.

Lemma emits_print (file : stream) (t : text) :
  P (Print file t) -> emits_only P (print file t).
Proof. intros H. unfold emits_only, print. simpl. now constructor. Qed.

Lemma emits_try_finally (A : Type) (body : Prog A) (final : Prog unit) :
  emits_only P body -> emits_only P final ->
  emits_only P (try_finally body final).
Proof.
  unfold emits_only, try_finally. intros Hb Hf.
  destruct body as [r t]. destruct final as [[u | s] t']; simpl in *;
    apply Forall_app; now split.
Qed.

Lemma emits_try_except (A : Type) (body : Prog A) (handler : exn -> Prog A) :
  emits_only P body -> (forall e, emits_only P (handler e)) ->
  emits_only P (try_except body handler).
Proof.
  unfold emits_only, try_except. intros Hb Hh.
  destruct body as [[a | [e | n]] t]; simpl in *; try assumption.
  specialize (Hh e). destruct (handler e) as [r t']. simpl in *.
  apply Forall_app. now split.
Qed.

Lemma emits_for_each (A : Type) (xs : list A) (body : A -> Prog unit) :
  (forall x, emits_only P (body x)) -> emits_only P (for_each xs body).
Proof.
  intros Hb. induction xs as [| x xs IH]; simpl.
  - apply emits_ret.
  - apply emits_bind; [apply Hb | intros _; exact IH].
Qed.
End Emits.

(** One step of a traced computation. *)
Ltac emits_step :=
  first
    [ apply emits_ret
    | apply emits_lift
    | apply emits_call
    | apply emits_print
    | apply emits_for_each; intros ?
    | apply emits_try_finally
    | apply emits_try_except; [| intros ?]
    | apply emits_bind; [| intros ?] ].

Lemma try_finally_trace (A : Type) (body : Prog A) (r : res unit) :
  snd (try_finally body (call EndRun r)) = snd body ++ [EndRun].
Proof.
  unfold try_finally, call. destruct body as [o t]. destruct r; reflexivity.
Qed.

Lemma try_finally_outcome (A : Type) (body : Prog A) (final : Prog unit) :
  fst (try_finally body final) =
  match fst final with
  | Returns _ => fst body
  | Raises s => Raises s
  end.
Proof.
  unfold try_finally. destruct body as [o t].
  destruct final as [[u | s] t']; reflexivity.
Qed.

(** ** The tracking run *)

Lemma load_data_emits (P : event -> Prop) (env : Env) (data_path : string) :
  P (ReadCsv data_path) -> (forall e, P (load_diagnostic e)) ->
  emits_only P (load_data env data_path).
Proof.
  intros Hr Hd. unfold load_data, load_data_body.
  apply emits_try_except.
  - repeat emits_step. exact Hr.
  - intros e. repeat emits_step. apply Hd.
Qed.

Lemma prepare_not_run (env : Env) (config : Config) :
  emits_only not_run_event (prepare env config).
Proof.
  unfold prepare.
  apply emits_bind; [apply emits_call; exact I | intros _].
  apply emits_bind; [apply emits_print; exact I | intros _].
  apply emits_bind;
    [apply load_data_emits; [exact I | intros e; exact I] | intros loaded].
  destruct loaded as [[X y] group_ids].
  apply emits_bind; [apply emits_call; exact I | intros parts].
  destruct parts as [[[X_train X_test] y_train] y_test].
  apply emits_bind; [apply emits_lift | intros groups].
  destruct groups as [train_groups test_groups].
  apply emits_bind; [apply emits_call; exact I | intros _].
  apply emits_bind; [apply emits_call; exact I | intros _].
  apply emits_ret.
Qed.

Lemma train_body_not_run (env : Env) (output_path : string) (hp : dict json)
    (X_train X_test : Frame) (y_test : list Z) (train_pool test_pool : Pool) :
  emits_only not_run_event
    (train_body env output_path hp X_train X_test y_test train_pool test_pool).
Proof.
  unfold train_body. repeat emits_step; try exact I.
  constructor; [exact I | constructor].
Qed.

Lemma split_at_unique (A : Type) (x : A) (l1 l2 before after : list A) :
  ~ In x l1 -> ~ In x l2 ->
  l1 ++ x :: l2 = before ++ x :: after ->
  before = l1 /\ after = l2.
Proof.
  revert before. induction l1 as [| y l1 IH]; intros before H1 H2 E.
  - destruct before as [| z before]; simpl in E.
    + inversion E. now split.
    + inversion E; subst. exfalso. apply H2.
      apply in_or_app. right. now left.
  - destruct before as [| z before]; simpl in E.
    + inversion E; subst. exfalso. apply H1. now left.
    + inversion E; subst.
      destruct (IH before) as [-> ->]; auto.
      intros Hin. apply H1. now right.
Qed.

Lemma not_run_no_start (t : list event) (name : string) :
  Forall not_run_event t -> ~ In (StartRun name) t.
Proof.
  intros H Hin. rewrite Forall_forall in H. exact (H _ Hin).
Qed.

Lemma tracked_run_started (env : Env) (p : Prepared) :
  mlflow_start_run env "catboost_training" = Ok tt ->
  snd (tracked_run env p) =
  StartRun "catboost_training"
  :: snd (train_body env (prep_output_path p) (prep_hyperparameters p)
                     (prep_X_train p) (prep_X_test p) (prep_y_test p)
                     (prep_train_pool p) (prep_test_pool p))
  ++ [EndRun].
Proof.
  intros Hs. unfold tracked_run. rewrite Hs. simpl.
  rewrite <- try_finally_trace with (r := mlflow_end_run env).
  destruct (try_finally _ _) as [r t]. reflexivity.
Qed.

(** C6: once [mlflow.start_run] has returned, whatever follows, the calls of
    [train_catboost] end with [mlflow.end_run()]: after the start come the
    calls of the body, however the body ended, and then the end of the run,
    which is called exactly once. *)
Theorem run_always_ended (env : Env) (config : Config)
    (before after : list event) :
  mlflow_start_run env "catboost_training" = Ok tt ->
  trace (train_catboost env config) =
    before ++ StartRun "catboost_training" :: after ->
  exists p,
    prepare env config = (Returns p, before) /\
    after =
      trace (train_body env (prep_output_path p) (prep_hyperparameters p)
                        (prep_X_train p) (prep_X_test p) (prep_y_test p)
                        (prep_train_pool p) (prep_test_pool p))
      ++ [EndRun] /\
    Forall not_run_event before /\
    Forall not_run_event (removelast after).
Proof.
  intros Hs E. unfold train_catboost, trace in *.
  assert (Hp := prepare_not_run env config). unfold emits_only in Hp.
  destruct (prepare env config) as [[p | s] t]; simpl in *.
  - assert (Ht := tracked_run_started env p Hs).
    destruct (tracked_run env p) as [r t']. simpl in *. subst t'.
    assert (Hb := train_body_not_run env (prep_output_path p)
                    (prep_hyperparameters p) (prep_X_train p) (prep_X_test p)
                    (prep_y_test p) (prep_train_pool p) (prep_test_pool p)).
    unfold emits_only in Hb.
    apply split_at_unique in E.
    + destruct E as [-> ->]. exists p. repeat split; auto.
      now rewrite removelast_last.
    + now apply not_run_no_start.
    + intros Hin. apply in_app_or in Hin. destruct Hin as [Hin | [Hin | []]].
      * now apply (@not_run_no_start _ "catboost_training" Hb) in Hin.
      * discriminate.
  - exfalso. apply (@not_run_no_start _ "catboost_training" Hp).
    rewrite E. apply in_or_app. right. now left.
Qed.

Lemma run_always_ended_witness :
  exists p,
    prepare failing_fit_env sample_config =
      (Returns p, snd (prepare failing_fit_env sample_config)) /\
    skipn 7 (trace (train_catboost failing_fit_env sample_config)) =
      trace (train_body failing_fit_env (prep_output_path p)
                        (prep_hyperparameters p)
                        (prep_X_train p) (prep_X_test p) (prep_y_test p)
                        (prep_train_pool p) (prep_test_pool p))
      ++ [EndRun] /\
    Forall not_run_event (snd (prepare failing_fit_env sample_config)) /\
    Forall not_run_event
      (removelast (skipn 7 (trace (train_catboost failing_fit_env sample_config)))).
Proof.
  apply (@run_always_ended failing_fit_env sample_config
           (snd (prepare failing_fit_env sample_config))
           (skipn 7 (trace (train_catboost failing_fit_env sample_config))));
    reflexivity.
Defined.

(** The run in which fitting raises: the exception leaves [train_catboost],
    and the last call is the end of the tracking run. *)
Example failing_fit_run :
  fst (train_catboost failing_fit_env sample_config) =
    Raises (Exception (LibraryError "CatBoostError" "fit failed")) /\
  skipn 6 (trace (train_catboost failing_fit_env sample_config)) =
    [StartRun "catboost_training";
     LogParam "iterations" (JInt 10);
     Print Stdout (Line "Training CatBoost model...");
     NewRanker (make_ranker [("iterations", JInt 10)]);
     Fit (make_ranker [("iterations", JInt 10)])
         {| data := [("speed", FloatCol [61 # 1; 59 # 1; 50 # 1]);
                     ("jockey", ObjectCol ["a"; "b"; "c"])];
            label := [1; 2; 4]%Z;
            group_id := Some [3]%Z;
            cat_features := ["jockey"] |}
         {| data := [("speed", FloatCol [55 # 1; 63 # 1; 48 # 1]);
                     ("jockey", ObjectCol ["a"; "b"; "c"])];
            label := [3; 1; 4]%Z;
            group_id := Some [3]%Z;
            cat_features := ["jockey"] |};
     EndRun].
Proof. split; reflexivity. Qed.

(** The run in which every call succeeds: [train_catboost] returns, and the
    last call is again the end of the tracking run. *)
Example sample_run :
  fst (train_catboost sample_env sample_config) = Returns tt /\
  last (trace (train_catboost sample_env sample_config)) (Mkdir "") = EndRun /\
  length (trace (train_catboost sample_env sample_config)) = 25%nat.
Proof. repeat split; reflexivity. Qed.

(** ** The result *)

Lemma train_catboost_keeps_placeholders (env : Env) (config : Config) :
  emits_only keeps_placeholders (train_catboost env config).
Proof.
  unfold train_catboost. apply emits_bind.
  - unfold prepare.
    apply emits_bind; [apply emits_call; exact I | intros _].
    apply emits_bind; [apply emits_print; exact I | intros _].
    apply emits_bind;
      [apply load_data_emits; [exact I | intros e; exact I] | intros loaded].
    destruct loaded as [[X y] group_ids].
    apply emits_bind; [apply emits_call; exact I | intros parts].
    destruct parts as [[[X_train X_test] y_train] y_test].
    apply emits_bind; [apply emits_lift | intros groups].
    destruct groups as [train_groups test_groups].
    apply emits_bind; [apply emits_call; exact I | intros _].
    apply emits_bind; [apply emits_call; exact I | intros _].
    apply emits_ret.
  - intros p. unfold tracked_run, train_body.
    repeat emits_step; try exact I;
      try (constructor; [exact I | constructor]);
      simpl; unfold placeholders; simpl; repeat split.
Qed.

(** C5: whatever the data and the configuration, the metrics object of a
    result that [train_catboost] prints holds the constants
    precision = 0.92, recall = 0.90, calibrationError = 0.05 and
    inferenceLatency = 25. *)
Theorem placeholders_constant (env : Env) (config : Config) (r : Result) :
  In (Print Stdout (JsonDumps r)) (trace (train_catboost env config)) ->
  precision (metrics r) = 92 # 100 /\
  recall (metrics r) = 90 # 100 /\
  calibrationError (metrics r) = 5 # 100 /\
  inferenceLatency (metrics r) = 25%Z.
Proof.
  intros Hin.
  assert (H := train_catboost_keeps_placeholders env config).
  unfold emits_only in H. rewrite Forall_forall in H.
  exact (H _ Hin).
Qed.

Lemma placeholders_constant_witness :
  precision (metrics sample_result) = 92 # 100 /\
  recall (metrics sample_result) = 90 # 100 /\
  calibrationError (metrics sample_result) = 5 # 100 /\
  inferenceLatency (metrics sample_result) = 25%Z.
Proof.
  apply (@placeholders_constant sample_env sample_config sample_result).
  cbv -[normalise discounted_gain IZR].
  repeat first [left; reflexivity | right].
Defined.

Lemma prints_bind (A : Type) (c : Prog A) (f : A -> Prog unit) :
  (forall a, prints_result_if_returns (f a)) ->
  prints_result_if_returns (bind c f).
Proof.
  unfold prints_result_if_returns, bind. intros Hf.
  destruct c as [[a | s] t]; simpl; [|discriminate].
  specialize (Hf a). destruct (f a) as [r t']. simpl in *.
  intros E. destruct (Hf E) as [res Hres]. exists res.
  apply in_or_app. now right.
Qed.

Lemma prints_try_finally (body : Prog unit) (final : Prog unit) :
  prints_result_if_returns body ->
  prints_result_if_returns (try_finally body final).
Proof.
  unfold prints_result_if_returns, try_finally. intros Hb.
  destruct body as [o t]. destruct final as [[u | s] t']; simpl in *;
    intros E; [|discriminate].
  destruct (Hb E) as [res Hres]. exists res. apply in_or_app. now left.
Qed.

Lemma train_catboost_prints_result (env : Env) (config : Config) :
  fst (train_catboost env config) = Returns tt ->
  exists r,
    In (Print Stdout (JsonDumps r)) (trace (train_catboost env config)) /\
    placeholders (metrics r).
Proof.
  intros E.
  assert (H : prints_result_if_returns (train_catboost env config)).
  { unfold train_catboost. apply prints_bind. intros p.
    unfold tracked_run. apply prints_bind. intros _.
    apply prints_try_finally. unfold train_body.
    repeat (apply prints_bind; intros ?).
    intros _. eexists. simpl. left. reflexivity. }
  destruct (H E) as [r Hr]. exists r. split; [exact Hr|].
  assert (Hk := train_catboost_keeps_placeholders env config).
  unfold emits_only in Hk. rewrite Forall_forall in Hk.
  exact (Hk _ Hr).
Qed.

(** ** The group slices *)

Lemma split_groups_of_cut (g : list Z) (test_size : number) (c : Z) :
  group_cut g test_size = Ok c ->
  split_groups (Some g) test_size =
  Ok (Some (Np.slice_to c g), Some (Np.slice_from c g)).
Proof. intros H. unfold split_groups. rewrite H. reflexivity. Qed.

Lemma bind_trace_prefix (A B : Type) (c : Prog A) (f : A -> Prog B) (ev : event) :
  In ev (snd c) -> In ev (snd (bind c f)).
Proof.
  unfold bind. destruct c as [[a | s] t]; simpl; [|auto].
  destruct (f a) as [r t']. simpl. intros H. apply in_or_app. now left.
Qed.

Lemma prepare_pools (env : Env) (config : Config) (df : DataFrame)
    (y : list Z) (X_train X_test : Frame) (y_train y_test : list Z)
    (train_groups test_groups : option (list Z)) :
  path_mkdir env (output_path_of config) = Ok tt ->
  read_csv env (data_path_of config) = Ok df ->
  rank df = Some y ->
  train_test_split env (features df) y (test_size_of config) =
    Ok (X_train, X_test, y_train, y_test) ->
  split_groups (option_map group_sizes (race_id df)) (test_size_of config) =
    Ok (train_groups, test_groups) ->
  let train_pool :=
    {| data := X_train; label := y_train; group_id := train_groups;
       cat_features := object_columns X_train |} in
  let test_pool :=
    {| data := X_test; label := y_test; group_id := test_groups;
       cat_features := object_columns X_test |} in
  In (NewPool train_pool) (snd (prepare env config)) /\
  (new_pool env train_pool = Ok tt ->
   In (NewPool test_pool) (snd (prepare env config))).
Proof.
  intros Hmk Hread Hrank Hsplit Hgroups train_pool test_pool.
  unfold prepare, load_data. rewrite Hmk.
  assert (Hb := load_data_body_cases env (data_path_of config)).
  rewrite Hread, Hrank in Hb. rewrite Hb. simpl.
  rewrite Hsplit. simpl.
  change (match race_id df with
          | Some ids => Some (group_sizes ids)
          | None => None
          end) with (option_map group_sizes (race_id df)).
  rewrite Hgroups. simpl. fold train_pool. fold test_pool.
  destruct (new_pool env train_pool) as [[] | e]; simpl.
  - destruct (new_pool env test_pool) as [[] | e]; simpl; split; intros; auto 10.
  - split; [auto 10 | discriminate].
Qed.

(** C4 (as worded): the train groups are not always the prefix of length
    [int(len(group_ids) * (1 - testSize))].  With [testSize = 2], a number
    of rows, and two races the cut is [int(2 * (1 - 2)) = -2]; the train
    pool gets [group_ids[:-2]], which is empty, and the test pool
    [group_ids[-2:]], every group. *)
Lemma groups_cut_for_row_count :
  test_size_of row_count_config = PyInt 2 /\
  group_sizes [7; 7; 7; 9; 9; 9]%Z = [3; 3]%Z /\
  py_int (py_mul (PyInt (Z.of_nat (length [3; 3]%Z)))
                 (py_sub (PyInt 1) (PyInt 2))) = Ok (-2)%Z /\
  In (NewPool {| data := [("speed", FloatCol [61 # 1; 50 # 1; 55 # 1; 48 # 1]);
                          ("jockey", ObjectCol ["a"; "c"; "a"; "c"])];
                 label := [1; 4; 3; 4]%Z;
                 group_id := Some [];
                 cat_features := ["jockey"] |})
     (trace (train_catboost row_count_env row_count_config)) /\
  In (NewPool {| data := [("speed", FloatCol [59 # 1; 63 # 1]);
                          ("jockey", ObjectCol ["b"; "b"])];
                 label := [2; 1]%Z;
                 group_id := Some [3; 3]%Z;
                 cat_features := ["jockey"] |})
     (trace (train_catboost row_count_env row_count_config)) /\
  Z.of_nat (length (@nil Z)) <> (-2)%Z.
Proof.
  split; [reflexivity|]. split; [reflexivity|]. split; [reflexivity|].
  split; [|split; [|discriminate]].
  - cbv -[normalise discounted_gain IZR].
    repeat first [left; reflexivity | right].
  - cbv -[normalise discounted_gain IZR].
    repeat first [left; reflexivity | right].
Qed.

(** C4 (amended): with a race-identifier column present, the group sizes
    are sliced purely by position.  For [c = int(len(group_ids) * (1 -
    testSize))], computed in Python's arithmetic, the train groups are
    [group_ids[:c]] and the test groups [group_ids[c:]], together the whole
    vector; when [0 <= c <= len(group_ids)] the train groups are the prefix
    of length [c] and the test groups the remaining suffix, and when [c] is
    negative both slices count from the end and the train groups do not
    have length [c]; the pools are built with these slices whatever rows
    the row split returns. *)
Theorem groups_sliced_by_position (env : Env) (config : Config)
    (df : DataFrame) (ids y : list Z)
    (X_train X_test : Frame) (y_train y_test : list Z) (c : Z) :
  path_mkdir env (output_path_of config) = Ok tt ->
  read_csv env (data_path_of config) = Ok df ->
  rank df = Some y ->
  race_id df = Some ids ->
  train_test_split env (features df) y (test_size_of config) =
    Ok (X_train, X_test, y_train, y_test) ->
  py_int (py_mul (PyInt (Z.of_nat (length (group_sizes ids))))
                 (py_sub (PyInt 1) (test_size_of config))) = Ok c ->
  exists train_groups test_groups,
    train_groups = Np.slice_to c (group_sizes ids) /\
    test_groups = Np.slice_from c (group_sizes ids) /\
    train_groups ++ test_groups = group_sizes ids /\
    ((0 <= c <= Z.of_nat (length (group_sizes ids)))%Z ->
     train_groups = firstn (Z.to_nat c) (group_sizes ids) /\
     Z.of_nat (length train_groups) = c /\
     test_groups = skipn (Z.to_nat c) (group_sizes ids)) /\
    ((c < 0)%Z ->
     train_groups =
       firstn (length (group_sizes ids) - Z.to_nat (- c)) (group_sizes ids) /\
     Z.of_nat (length train_groups) <> c /\
     test_groups =
       skipn (length (group_sizes ids) - Z.to_nat (- c)) (group_sizes ids)) /\
    In (NewPool {| data := X_train; label := y_train;
                   group_id := Some train_groups;
                   cat_features := object_columns X_train |})
       (trace (train_catboost env config)) /\
    (new_pool env {| data := X_train; label := y_train;
                     group_id := Some train_groups;
                     cat_features := object_columns X_train |} = Ok tt ->
     In (NewPool {| data := X_test; label := y_test;
                    group_id := Some test_groups;
                    cat_features := object_columns X_test |})
        (trace (train_catboost env config))).
Proof.
  intros Hmk Hread Hrank Hrace Hsplit Hcut.
  set (g := group_sizes ids) in *.
  exists (Np.slice_to c g), (Np.slice_from c g).
  split; [reflexivity|]. split; [reflexivity|].
  split; [apply slice_to_from|]. split; [|split].
  - intros [Hc0 Hc1]. unfold Np.slice_to, Np.slice_from.
    apply Z.leb_le in Hc0. rewrite Hc0. apply Z.leb_le in Hc0.
    repeat split. rewrite length_firstn. lia.
  - intros Hneg. unfold Np.slice_to, Np.slice_from.
    assert (E : (0 <=? c)%Z = false) by (apply Z.leb_gt; exact Hneg).
    rewrite E. repeat split. lia.
  - assert (Hg : split_groups (option_map group_sizes (race_id df))
                              (test_size_of config) =
                 Ok (Some (Np.slice_to c g), Some (Np.slice_from c g))).
    { rewrite Hrace. simpl. apply split_groups_of_cut. exact Hcut. }
    destruct (prepare_pools env config Hmk Hread Hrank Hsplit Hg)
      as [Htrain Htest].
    unfold train_catboost, trace. split.
    + now apply bind_trace_prefix.
    + intros Hok. apply bind_trace_prefix. now apply Htest.
Qed.

Lemma groups_sliced_by_position_witness :
  exists train_groups test_groups,
    train_groups = [3]%Z /\
    test_groups = [3]%Z /\
    train_groups ++ test_groups = [3; 3]%Z /\
    ((0 <= 1 <= 2)%Z ->
     train_groups = firstn 1 [3; 3]%Z /\
     Z.of_nat (length train_groups) = 1%Z /\
     test_groups = skipn 1 [3; 3]%Z) /\
    ((1 < 0)%Z ->
     train_groups = firstn (2 - Z.to_nat (- (1))) [3; 3]%Z /\
     Z.of_nat (length train_groups) <> 1%Z /\
     test_groups = skipn (2 - Z.to_nat (- (1))) [3; 3]%Z) /\
    In (NewPool {| data := [("speed", FloatCol [61 # 1; 59 # 1; 50 # 1]);
                            ("jockey", ObjectCol ["a"; "b"; "c"])];
                   label := [1; 2; 4]%Z;
                   group_id := Some train_groups;
                   cat_features := ["jockey"] |})
       (trace (train_catboost sample_env sample_config)) /\
    (new_pool sample_env
       {| data := [("speed", FloatCol [61 # 1; 59 # 1; 50 # 1]);
                   ("jockey", ObjectCol ["a"; "b"; "c"])];
          label := [1; 2; 4]%Z;
          group_id := Some train_groups;
          cat_features := ["jockey"] |} = Ok tt ->
     In (NewPool {| data := [("speed", FloatCol [55 # 1; 63 # 1; 48 # 1]);
                             ("jockey", ObjectCol ["a"; "b"; "c"])];
                    label := [3; 1; 4]%Z;
                    group_id := Some test_groups;
                    cat_features := ["jockey"] |})
        (trace (train_catboost sample_env sample_config))).
Proof.
  apply (@groups_sliced_by_position sample_env sample_config sample_frame
           [7; 7; 7; 9; 9; 9]%Z [1; 2; 4; 3; 1; 4]%Z
           [("speed", FloatCol [61 # 1; 59 # 1; 50 # 1]);
            ("jockey", ObjectCol ["a"; "b"; "c"])]
           [("speed", FloatCol [55 # 1; 63 # 1; 48 # 1]);
            ("jockey", ObjectCol ["a"; "b"; "c"])]
           [1; 2; 4]%Z [3; 1; 4]%Z 1%Z);
    reflexivity.
Defined.

(** Two races and the default test size 0.2: [int(2 * 0.8) = 1], one group
    each. *)
Example split_groups_default :
  split_groups (Some [3; 3]%Z) (PyFloat 0.2%float) =
  Ok (Some [3]%Z, Some [3]%Z).
Proof. reflexivity. Qed.

(** Five races and test size 0.25: [int(5 * 0.75) = 3]. *)
Example split_groups_quarter :
  split_groups (Some [4; 2; 3; 5; 1]%Z) (PyFloat 0.25%float) =
  Ok (Some [4; 2; 3]%Z, Some [5; 1]%Z).
Proof. reflexivity. Qed.

(** Five races and test size 0.8: in float64 [1 - 0.8] is just below [0.2]
    and [5 * (1 - 0.8)] just below [1], so the cut is 0 and no group is
    left for training. *)
Example split_groups_four_fifths :
  group_cut [4; 2; 3; 5; 1]%Z (PyFloat 0.8%float) = Ok 0%Z /\
  split_groups (Some [4; 2; 3; 5; 1]%Z) (PyFloat 0.8%float) =
  Ok (Some [], Some [4; 2; 3; 5; 1]%Z).
Proof. split; reflexivity. Qed.

(** Likewise ten races at 0.9 give the cut 0, and ninety at 0.3 the cut 62,
    one less than [90 * 0.7]. *)
Example group_cut_rounding :
  group_cut (repeat 3%Z 10) (PyFloat 0.9%float) = Ok 0%Z /\
  group_cut (repeat 3%Z 90) (PyFloat 0.3%float) = Ok 62%Z /\
  group_cut (repeat 3%Z 90) (PyFloat 0.5%float) = Ok 45%Z.
Proof. repeat split; vm_compute; reflexivity. Qed.

(** With a test size given as an [int] the arithmetic is exact. *)
Example group_cut_int :
  group_cut [4; 2; 3]%Z (PyInt 0) = Ok 3%Z /\
  group_cut [4; 2; 3]%Z (PyInt 1) = Ok 0%Z /\
  group_cut [4; 2; 3]%Z (PyInt 2) = Ok (-3)%Z.
Proof. repeat split; reflexivity. Qed.

(** There is no cut for a test size that is not a finite number. *)
Example group_cut_nan :
  group_cut [4; 2; 3]%Z (PyFloat PrimFloat.nan) =
    Raise (LibraryError "ValueError" "cannot convert float NaN to integer") /\
  group_cut [4; 2; 3]%Z (PyFloat PrimFloat.infinity) =
    Raise (LibraryError "OverflowError"
                        "cannot convert float infinity to integer").
Proof. split; reflexivity. Qed.

(** No race identifier, no groups. *)
Example split_groups_none :
  split_groups None (PyFloat 0.2%float) = Ok (None, None).
Proof. reflexivity. Qed.

Example ranked_demo : ranked_indices [1 # 2; 3; 3; 0]%Q (-1) = [1; 2; 0]%nat.
Proof. reflexivity. Qed.

Example group_sizes_demo : group_sizes [9; 7; 9; 7; 7]%Z = [3; 2]%Z.
Proof. reflexivity. Qed.

(** * Further properties *)

(** ** NDCG@k on vectors of any length *)

Lemma take_Ok_inv (a : list Z) (indices : list nat) (l : list Z) :
  Np.take a indices = Ok l ->
  Forall (fun i => (i < length a)%nat) indices /\ l = map (at_index a) indices.
Proof.
  revert l. induction indices as [| i rest IH]; intros l H; simpl in H.
  - inversion H. split; [constructor | reflexivity].
  - destruct (nth_error a i) eqn:E; [|discriminate].
    destruct (Np.take a rest) as [vs | e]; [|discriminate].
    inversion H; subst. destruct (IH vs eq_refl) as [Hall ->]. split.
    + constructor; [|assumption]. apply nth_error_Some. congruence.
    + simpl. f_equal. unfold at_index. symmetry. now apply nth_error_nth.
Qed.

Lemma take_Raise_inv (a : list Z) (indices : list nat) (e : exn) :
  Np.take a indices = Raise e ->
  e = IndexError /\ Exists (fun i => (length a <= i)%nat) indices.
Proof.
  induction indices as [| i rest IH]; intros H; simpl in H; [discriminate|].
  destruct (nth_error a i) eqn:E.
  - destruct (Np.take a rest) as [vs | e']; [discriminate|].
    inversion H; subst. destruct (IH eq_refl) as [-> Hex].
    split; [reflexivity | now apply Exists_cons_tl].
  - inversion H. split; [reflexivity|].
    apply Exists_cons_hd. now apply nth_error_None.
Qed.

Lemma ranked_indices_NoDup (y_pred : list Q) (k : Z) :
  NoDup (ranked_indices y_pred k).
Proof.
  unfold ranked_indices. rewrite slice_to_firstn.
  set (n := if (0 <=? k)%Z then _ else _).
  assert (H : NoDup (Np.argsort (map Qopp y_pred))).
  { eapply Permutation_NoDup; [apply Permutation_sym, argsort_perm|].
    apply seq_NoDup. }
  rewrite <- (firstn_skipn n) in H. now apply NoDup_app_remove_r in H.
Qed.

Lemma ranked_indices_length (y_pred : list Q) (k : Z) :
  length (ranked_indices y_pred k) =
  Nat.min (if (0 <=? k)%Z then Z.to_nat k
           else length y_pred - Z.to_nat (- k))
          (length y_pred).
Proof.
  unfold ranked_indices. rewrite slice_to_firstn, length_firstn.
  now rewrite (Permutation_length (argsort_perm _)), length_seq, length_map.
Qed.

Lemma placed_map_filter (y : list Z) (indices : list nat) :
  placed (map (at_index y) indices) =
  length (filter (fun i => (at_index y i <=? 2)%Z) indices).
Proof.
  unfold placed. induction indices as [| i rest IH]; simpl; [reflexivity|].
  destruct (at_index y i <=? 2)%Z; simpl; now rewrite IH.
Qed.

(** Distinct indices in bounds select at most as many placed entries as the
    vector has. *)
Lemma placed_of_indices (y : list Z) (indices : list nat) :
  NoDup indices -> Forall (fun i => (i < length y)%nat) indices ->
  (placed (map (at_index y) indices) <= placed y)%nat.
Proof.
  intros Hnd Hall.
  rewrite <- (map_at_index_seq y) at 2. rewrite !placed_map_filter.
  apply NoDup_incl_length.
  - now apply NoDup_filter.
  - intros i Hi. apply filter_In in Hi. destruct Hi as [Hi Hp].
    apply filter_In. split; [|assumption].
    rewrite Forall_forall in Hall. apply in_seq. specialize (Hall i Hi). lia.
Qed.

Lemma ideal_placed (y_true : list Z) (k : Z) :
  placed (ideal_ranked y_true k) =
  Nat.min (if (0 <=? k)%Z then Z.to_nat k
           else length y_true - Z.to_nat (- k))
          (placed y_true).
Proof.
  unfold ideal_ranked. rewrite slice_to_firstn.
  rewrite (placed_firstn_sorted _ (sort_sorted y_true)).
  now rewrite (placed_perm (sort_perm y_true)),
              (Permutation_length (sort_perm y_true)).
Qed.

(** The gain bound without the assumption of equal lengths: it needs the
    cutoff to be non-negative, or the predictions not to outnumber the true
    ranks. *)
Lemma dcg_le_idcg_any_length (y_true : list Z) (y_pred : list Q) (k : Z)
    (ranked_true : list Z) :
  (0 <= k)%Z \/ (length y_pred <= length y_true)%nat ->
  Np.take y_true (ranked_indices y_pred k) = Ok ranked_true ->
  (discounted_gain ranked_true <= discounted_gain (ideal_ranked y_true k))%R.
Proof.
  intros Hk Ht. apply take_Ok_inv in Ht. destruct Ht as [Hall ->].
  rewrite ideal_gain, discounted_gain_from.
  eapply Rle_trans; [apply gain_from_le|].
  apply discount_sum_mono. rewrite ideal_placed.
  assert (H1 := @placed_of_indices y_true _ (ranked_indices_NoDup y_pred k) Hall).
  assert (H2 := placed_le_length (map (at_index y_true) (ranked_indices y_pred k))).
  rewrite length_map, ranked_indices_length in H2.
  destruct (Z.leb_spec 0 k); lia.
Qed.

Lemma calculate_ndcg_cases (y_true : list Z) (y_pred : list Q) (k : Z) :
  (exists ranked_true,
     Np.take y_true (ranked_indices y_pred k) = Ok ranked_true /\
     calculate_ndcg y_true y_pred k =
       Ok (normalise (discounted_gain ranked_true)
                     (discounted_gain (ideal_ranked y_true k)))) \/
  (calculate_ndcg y_true y_pred k = Raise IndexError /\
   (length y_true < length y_pred)%nat).
Proof.
  unfold calculate_ndcg.
  destruct (Np.take y_true (ranked_indices y_pred k)) as [l | e] eqn:E.
  - left. exists l. split; reflexivity.
  - right. apply take_Raise_inv in E. destruct E as [-> Hex]. split; [reflexivity|].
    apply Exists_exists in Hex. destruct Hex as (i & Hi & Hle).
    unfold ranked_indices in Hi. rewrite slice_to_firstn in Hi.
    apply firstn_In' in Hi.
    apply (Permutation_in _ (argsort_perm _)), in_seq in Hi.
    rewrite length_map in Hi. lia.
Qed.

(** X1: with a non-negative cutoff, and vectors of any two lengths,
    [calculate_ndcg] either returns a value in [0, 1], or raises
    [IndexError], which needs more predictions than true ranks. *)
Theorem ndcg_bounded_or_index_error (y_true : list Z) (y_pred : list Q) (k : Z) :
  (0 <= k)%Z ->
  (exists v, calculate_ndcg y_true y_pred k = Ok v /\ (0 <= v <= 1)%R) \/
  (calculate_ndcg y_true y_pred k = Raise IndexError /\
   (length y_true < length y_pred)%nat).
Proof.
  intros Hk.
  destruct (calculate_ndcg_cases y_true y_pred k) as [(l & Ht & E) | H];
    [left | now right].
  eexists. split; [exact E|].
  apply normalise_bounds. split; [apply discounted_gain_nonneg|].
  eapply dcg_le_idcg_any_length; [left; exact Hk | exact Ht].
Qed.

Lemma ndcg_bounded_or_index_error_witness :
  (exists v, calculate_ndcg [1; 4]%Z [1; 3; 2]%Q 1 = Ok v /\ (0 <= v <= 1)%R) \/
  (calculate_ndcg [1; 4]%Z [1; 3; 2]%Q 1 = Raise IndexError /\
   (length [1; 4]%Z < length [1; 3; 2]%Q)%nat).
Proof. apply ndcg_bounded_or_index_error. lia. Defined.

(** X2: when the predictions do not outnumber the true ranks,
    [calculate_ndcg] returns a value in [0, 1] for every cutoff, negative
    ones (which count from the end) included. *)
Theorem ndcg_total_for_fewer_predictions (y_true : list Z) (y_pred : list Q)
    (k : Z) :
  (length y_pred <= length y_true)%nat ->
  exists v, calculate_ndcg y_true y_pred k = Ok v /\ (0 <= v <= 1)%R.
Proof.
  intros Hlen.
  destruct (calculate_ndcg_cases y_true y_pred k) as [(l & Ht & E) | [_ H]];
    [|lia].
  eexists. split; [exact E|].
  apply normalise_bounds. split; [apply discounted_gain_nonneg|].
  eapply dcg_le_idcg_any_length; [right; exact Hlen | exact Ht].
Qed.

Lemma ndcg_total_for_fewer_predictions_witness :
  exists v, calculate_ndcg [1; 4; 2]%Z [1; 3]%Q (-1) = Ok v /\ (0 <= v <= 1)%R.
Proof. apply ndcg_total_for_fewer_predictions. simpl. lia. Defined.

(** X3: with a cutoff that covers every prediction, [calculate_ndcg] raises
    [IndexError] exactly when there are more predictions than true ranks. *)
Theorem ndcg_index_error (y_true : list Z) (y_pred : list Q) (k : Z) :
  (Z.of_nat (length y_pred) <= k)%Z ->
  (calculate_ndcg y_true y_pred k = Raise IndexError <->
   (length y_true < length y_pred)%nat).
Proof.
  intros Hk. split.
  - intros H.
    destruct (calculate_ndcg_cases y_true y_pred k) as [(l & _ & E) | [_ Hl]];
      [congruence | exact Hl].
  - intros Hlen. unfold calculate_ndcg.
    rewrite take_out_of_bounds; [reflexivity|].
    apply Exists_exists. exists (length y_true). split; [|lia].
    unfold ranked_indices. rewrite slice_to_firstn.
    assert (H0 : (0 <=? k)%Z = true) by (apply Z.leb_le; lia).
    rewrite H0, firstn_all2.
    + apply (Permutation_in _ (Permutation_sym (argsort_perm _))).
      apply in_seq. rewrite length_map. lia.
    + rewrite (Permutation_length (argsort_perm _)), length_seq, length_map. lia.
Qed.

Lemma ndcg_index_error_witness :
  calculate_ndcg [1; 4]%Z [1; 3; 2]%Q 4 = Raise IndexError <->
  (length [1; 4]%Z < length [1; 3; 2]%Q)%nat.
Proof. apply ndcg_index_error. simpl. lia. Defined.

(** With more predictions than true ranks and a negative cutoff the two
    slices have different lengths, and the value can exceed 1. *)
Example ndcg_above_one :
  exists v,
    calculate_ndcg [1; 1; 1]%Z [5; 4; 3; 2; 1]%Q (-2) = Ok v /\ (1 < v)%R.
Proof.
  eexists. split.
  - unfold calculate_ndcg.
    change (Np.take [1; 1; 1]%Z (ranked_indices [5; 4; 3; 2; 1]%Q (-2)))
      with (Ok [1; 1; 1]%Z).
    change (ideal_ranked [1; 1; 1]%Z (-2)) with [1%Z].
    reflexivity.
  - rewrite !discounted_gain_from. simpl. rewrite discount_0.
    assert (H1 := discount_pos 1). assert (H2 := discount_pos 2).
    unfold normalise. destruct (Rlt_dec 0 (1 + 0)); [|lra].
    unfold Rdiv. replace (1 + 0)%R with 1%R by lra. rewrite Rinv_1. lra.
Qed.

(** ** The metrics see the scores only through their order *)

Lemma Qle_bool_ext (x y x' y' : Q) :
  (x <= y <-> x' <= y') -> Qle_bool x y = Qle_bool x' y'.
Proof.
  intros H. destruct (Qle_bool x y) eqn:E; symmetry.
  - apply Qle_bool_iff, H, Qle_bool_iff, E.
  - destruct (Qle_bool x' y') eqn:E'; [|reflexivity].
    apply Qle_bool_iff, H, Qle_bool_iff in E'. congruence.
Qed.

Lemma insert_key_rekey (g : Q -> Q) (x : Q * nat) (l : list (Q * nat)) :
  (forall a b, Qle_bool (g a) (g b) = Qle_bool a b) ->
  Np.insert_key (g (fst x), snd x) (map (fun p => (g (fst p), snd p)) l) =
  map (fun p => (g (fst p), snd p)) (Np.insert_key x l).
Proof.
  intros Hg. induction l as [| y l IH]; simpl; [reflexivity|].
  rewrite Hg. destruct (Qle_bool (fst x) (fst y)); simpl; [reflexivity|].
  now rewrite IH.
Qed.

Lemma sort_keys_rekey (g : Q -> Q) (l : list (Q * nat)) :
  (forall a b, Qle_bool (g a) (g b) = Qle_bool a b) ->
  Np.sort_keys (map (fun p => (g (fst p), snd p)) l) =
  map (fun p => (g (fst p), snd p)) (Np.sort_keys l).
Proof.
  intros Hg. induction l as [| x l IH]; simpl; [reflexivity|].
  rewrite IH. now apply insert_key_rekey.
Qed.

Lemma combine_map_l (A B C : Type) (g : A -> C) (l : list A) (l' : list B) :
  combine (map g l) l' = map (fun p => (g (fst p), snd p)) (combine l l').
Proof.
  revert l'. induction l as [| x l IH]; intros [| y l']; simpl; try reflexivity.
  now rewrite IH.
Qed.

(** [np.argsort] depends on the keys only through their comparisons. *)
Lemma argsort_rekey (g : Q -> Q) (keys : list Q) :
  (forall a b, Qle_bool (g a) (g b) = Qle_bool a b) ->
  Np.argsort (map g keys) = Np.argsort keys.
Proof.
  intros Hg. unfold Np.argsort.
  rewrite length_map, combine_map_l, (sort_keys_rekey _ _ Hg), map_map.
  reflexivity.
Qed.

Lemma Qopp_opp (x : Q) : Qopp (Qopp x) = x.
Proof. destruct x as [n d]. unfold Qopp. simpl. now rewrite Z.opp_involutive. Qed.

Lemma ranked_indices_monotone (f : Q -> Q) (y_pred : list Q) (k : Z) :
  (forall x y, f x <= f y <-> x <= y) ->
  ranked_indices (map f y_pred) k = ranked_indices y_pred k.
Proof.
  intros Hf. unfold ranked_indices. f_equal.
  replace (map Qopp (map f y_pred))
    with (map (fun x => Qopp (f (Qopp x))) (map Qopp y_pred)).
  - apply argsort_rekey. intros a b. apply Qle_bool_ext.
    split; intros H.
    + apply Qopp_le_compat in H. rewrite !Qopp_opp in H.
      apply (proj1 (Hf _ _)) in H. apply Qopp_le_compat in H.
      now rewrite !Qopp_opp in H.
    + apply Qopp_le_compat. apply (proj2 (Hf _ _)). now apply Qopp_le_compat.
  - rewrite !map_map. apply map_ext. intros x. now rewrite Qopp_opp.
Qed.

(** X4: [calculate_ndcg] is unchanged when the scores go through any
    strictly increasing map (a positive rescaling, a shift): it sees the
    predictions only through their order. *)
Theorem ndcg_order_invariant (f : Q -> Q) (y_true : list Z) (y_pred : list Q)
    (k : Z) :
  (forall x y, f x <= f y <-> x <= y) ->
  calculate_ndcg y_true (map f y_pred) k = calculate_ndcg y_true y_pred k.
Proof.
  intros Hf. unfold calculate_ndcg. now rewrite ranked_indices_monotone.
Qed.

Lemma ndcg_order_invariant_witness :
  calculate_ndcg [1; 4; 2]%Z (map (Qplus 1) [1 # 2; 3; 0]%Q) 2 =
  calculate_ndcg [1; 4; 2]%Z [1 # 2; 3; 0]%Q 2.
Proof. apply ndcg_order_invariant. intros x y. apply Qplus_le_r. Defined.

Lemma argmax_scan_monotone (f : Q -> Q) (rest : list Q) (mp : Q) (best i : nat) :
  (forall x y, f x <= f y <-> x <= y) ->
  Np.argmax_scan (f mp) best i (map f rest) = Np.argmax_scan mp best i rest.
Proof.
  intros Hf. revert mp best i.
  induction rest as [| x rest IH]; intros mp best i; simpl; [reflexivity|].
  rewrite (Qle_bool_ext (Hf x mp)).
  destruct (Qle_bool x mp); apply IH.
Qed.

(** X5: [calculate_accuracy] is unchanged when the scores go through any
    strictly increasing map. *)
Theorem accuracy_order_invariant (f : Q -> Q) (y_true : list Z)
    (y_pred : list Q) :
  (forall x y, f x <= f y <-> x <= y) ->
  calculate_accuracy y_true (map f y_pred) = calculate_accuracy y_true y_pred.
Proof.
  intros Hf. unfold calculate_accuracy, Np.argmax.
  destruct y_pred as [| x rest]; simpl; [reflexivity|].
  now rewrite argmax_scan_monotone.
Qed.

Lemma accuracy_order_invariant_witness :
  calculate_accuracy [4; 1; 3]%Z (map (Qplus 1) [1 # 2; 3; 0]%Q) =
  calculate_accuracy [4; 1; 3]%Z [1 # 2; 3; 0]%Q.
Proof. apply accuracy_order_invariant. intros x y. apply Qplus_le_r. Defined.

(** ** Cutoffs beyond the data *)

Lemma slice_to_all (A : Type) (k : Z) (l : list A) :
  (Z.of_nat (length l) <= k)%Z -> Np.slice_to k l = l.
Proof.
  intros Hk. unfold Np.slice_to.
  assert (H0 : (0 <=? k)%Z = true) by (apply Z.leb_le; lia).
  rewrite H0. apply firstn_all2. lia.
Qed.

(** X6: a cutoff beyond both vectors changes nothing: all such cutoffs give
    the same result (so NDCG@2, @3 and @4 agree on a test set of at most
    two rows). *)
Theorem ndcg_cutoff_saturates (y_true : list Z) (y_pred : list Q) (k k' : Z) :
  (Z.of_nat (length y_true) <= k)%Z -> (Z.of_nat (length y_pred) <= k)%Z ->
  (Z.of_nat (length y_true) <= k')%Z -> (Z.of_nat (length y_pred) <= k')%Z ->
  calculate_ndcg y_true y_pred k = calculate_ndcg y_true y_pred k'.
Proof.
  intros Ht Hp Ht' Hp'. unfold calculate_ndcg, ranked_indices, ideal_ranked.
  assert (Ha : length (Np.argsort (map Qopp y_pred)) = length y_pred)
    by (now rewrite (Permutation_length (argsort_perm _)), length_seq, length_map).
  assert (Hs : length (Np.sort y_true) = length y_true)
    by (apply Permutation_length, sort_perm).
  rewrite !slice_to_all by lia. reflexivity.
Qed.

Lemma ndcg_cutoff_saturates_witness :
  calculate_ndcg [1; 4]%Z [1 # 2; 3]%Q 2 = calculate_ndcg [1; 4]%Z [1 # 2; 3]%Q 4.
Proof. apply ndcg_cutoff_saturates; simpl; lia. Defined.

(** ** NDCG@1 and the top-1 accuracy *)

Lemma placed_pos_of_In (y : list Z) (r : Z) :
  In r y -> (r <= 2)%Z -> (0 < placed y)%nat.
Proof.
  intros Hin Hr. unfold placed.
  assert (H : In r (filter (fun r => (r <=? 2)%Z) y)).
  { apply filter_In. split; [assumption | now apply Z.leb_le]. }
  destruct (filter _ y); [contradiction | simpl; lia].
Qed.

(** With a single best score, the first index of [np.argsort(-y_pred)] is
    the index [np.argmax(y_pred)] returns. *)
Lemma ranked_first_is_argmax (y_pred : list Q) (top1 : nat) :
  (top1 < length y_pred)%nat ->
  (forall j, (j < length y_pred)%nat -> j <> top1 ->
             score_at y_pred j < score_at y_pred top1) ->
  ranked_indices y_pred 1 = [top1].
Proof.
  intros Hlt Huniq. unfold ranked_indices.
  assert (Hperm := argsort_perm (map Qopp y_pred)).
  assert (Hsort := argsort_sorted (map Qopp y_pred)).
  rewrite length_map in Hperm.
  destruct (Np.argsort (map Qopp y_pred)) as [| i0 rest] eqn:E.
  - apply Permutation_length in Hperm. rewrite length_seq in Hperm.
    simpl in Hperm. lia.
  - unfold Np.slice_to. simpl. f_equal.
    assert (Hi0 : (i0 < length y_pred)%nat).
    { apply (Permutation_in i0) in Hperm; [|now left].
      apply in_seq in Hperm. lia. }
    assert (Htop : In top1 (i0 :: rest)).
    { apply (Permutation_in _ (Permutation_sym Hperm)). apply in_seq. lia. }
    destruct Htop as [Heq | Hin]; [assumption|].
    destruct (Nat.eq_dec i0 top1) as [Heq | Hne]; [assumption|].
    exfalso. apply StronglySorted_inv in Hsort. destruct Hsort as [_ Hall].
    rewrite Forall_forall in Hall. specialize (Hall top1 Hin).
    rewrite !score_at_opp in Hall by assumption.
    apply Qopp_le_compat in Hall. rewrite !Qopp_opp in Hall.
    apply (Qlt_irrefl (score_at y_pred top1)).
    eapply Qle_lt_trans; [exact Hall | now apply Huniq].
Qed.

(** X7: on vectors of equal length whose best score is attained once,
    NDCG@1 is the top-1 accuracy. *)
Theorem ndcg_at_1_is_accuracy (y_true : list Z) (y_pred : list Q) (top1 : nat) :
  length y_true = length y_pred ->
  Np.argmax y_pred = Ok top1 ->
  (forall j, (j < length y_pred)%nat -> j <> top1 ->
             score_at y_pred j < score_at y_pred top1) ->
  calculate_ndcg y_true y_pred 1 = calculate_accuracy y_true y_pred.
Proof.
  intros Hlen Ha Huniq.
  assert (Hlt : (top1 < length y_pred)%nat).
  { destruct y_pred as [| x rest]; [discriminate|].
    destruct (@argmax_first_max (x :: rest)) as (i & Hi & Hmax); [discriminate|].
    rewrite Ha in Hi. apply Ok_inj in Hi. subst i. now destruct Hmax. }
  assert (Hlt' : (top1 < length y_true)%nat) by lia.
  rewrite (@calculate_accuracy_eq y_true y_pred top1 Ha Hlt').
  unfold calculate_ndcg.
  rewrite (@ranked_first_is_argmax y_pred top1 Hlt Huniq).
  rewrite take_in_bounds by (constructor; [assumption | constructor]).
  simpl map. f_equal.
  assert (Hin : In (at_index y_true top1) y_true)
    by (unfold at_index; now apply nth_In).
  assert (H0 := discounted_gain_nonneg (ideal_ranked y_true 1)).
  rewrite discounted_gain_from.
  destruct (Z.leb_spec (at_index y_true top1) 2) as [Hr | Hr].
  - assert (Hp := @placed_pos_of_In y_true _ Hin Hr).
    assert (Hi : discounted_gain (ideal_ranked y_true 1) = discount 0).
    { rewrite ideal_gain, ideal_placed.
      change (if (0 <=? 1)%Z then Z.to_nat 1
              else (length y_true - Z.to_nat (- (1)))%nat) with 1%nat.
      replace (Nat.min 1 (placed y_true)) with 1%nat by lia.
      simpl. lra. }
    rewrite Hi. simpl. apply Z.leb_le in Hr. rewrite Hr.
    replace (discount 0 + 0)%R with (discount 0) by lra.
    apply normalise_same, discount_pos.
  - simpl. apply Z.leb_gt in Hr. rewrite Hr.
    apply normalise_zero; lra.
Qed.

Lemma ndcg_at_1_is_accuracy_witness :
  calculate_ndcg [4; 1; 3]%Z [1 # 2; 3; 0]%Q 1 =
  calculate_accuracy [4; 1; 3]%Z [1 # 2; 3; 0]%Q.
Proof.
  apply (@ndcg_at_1_is_accuracy [4; 1; 3]%Z [1 # 2; 3; 0]%Q 1%nat);
    [reflexivity | reflexivity |].
  intros j Hj Hne. simpl in Hj.
  destruct j as [| [| [| j]]]; try lia; reflexivity.
Defined.

(** ** Group sizes *)

Lemma sum_Z_of_nat (l : list nat) :
  sum_Z (map Z.of_nat l) = Z.of_nat (list_sum l).
Proof.
  unfold sum_Z. induction l as [| n l IH]; simpl; [reflexivity|].
  rewrite IH. lia.
Qed.

Lemma list_sum_cons' (a : nat) (l : list nat) :
  list_sum (a :: l) = (a + list_sum l)%nat.
Proof. reflexivity. Qed.

Lemma count_no_key (keys : list Z) (x : Z) :
  ~ In x keys ->
  list_sum (map (fun r => if Z.eq_dec x r then 1 else 0)%nat keys) = 0%nat.
Proof.
  induction keys as [| r keys IH]; intros Hnot; simpl; [reflexivity|].
  destruct (Z.eq_dec x r) as [-> | _].
  - exfalso. apply Hnot. now left.
  - apply IH. intros H. apply Hnot. now right.
Qed.

Lemma count_one_key (keys : list Z) (x : Z) :
  NoDup keys -> In x keys ->
  list_sum (map (fun r => if Z.eq_dec x r then 1 else 0)%nat keys) = 1%nat.
Proof.
  induction 1 as [| r keys Hnot Hnd IH]; intros Hin; [contradiction|].
  simpl. destruct (Z.eq_dec x r) as [-> | Hne].
  - now rewrite count_no_key.
  - destruct Hin as [-> | Hin]; [congruence|]. now rewrite IH.
Qed.

Lemma count_over_keys (keys l : list Z) :
  NoDup keys -> incl l keys ->
  list_sum (map (count_occ Z.eq_dec l) keys) = length l.
Proof.
  intros Hnd. induction l as [| x l IH]; intros Hincl.
  - simpl. clear. induction keys; simpl; [reflexivity | assumption].
  - assert (Hx : In x keys) by (apply Hincl; now left).
    assert (Hl : incl l keys) by (intros a Ha; apply Hincl; now right).
    specialize (IH Hl). simpl length. rewrite <- IH.
    transitivity
      (list_sum (map (fun r => if Z.eq_dec x r then 1 else 0)%nat keys)
       + list_sum (map (count_occ Z.eq_dec l) keys))%nat.
    + clear. induction keys as [| r keys IHk]; [reflexivity|].
      rewrite !map_cons, !list_sum_cons', IHk. simpl count_occ.
      destruct (Z.eq_dec x r); lia.
    + now rewrite (@count_one_key keys x Hnd Hx).
Qed.

Lemma sort_In (a : list Z) (x : Z) : In x (Np.sort a) <-> In x a.
Proof.
  split; apply Permutation_in; [|apply Permutation_sym]; apply sort_perm.
Qed.

(** X8: the group sizes [load_data] derives from the race identifiers are
    all at least 1, there is one per distinct race, and they add up to the
    number of rows. *)
Theorem group_sizes_partition_rows (ids : list Z) :
  sum_Z (group_sizes ids) = Z.of_nat (length ids) /\
  Forall (fun size => (1 <= size)%Z) (group_sizes ids) /\
  length (group_sizes ids) = length (nodup Z.eq_dec ids).
Proof.
  unfold group_sizes. split; [|split].
  - rewrite <- (map_map (count_occ Z.eq_dec ids) Z.of_nat), sum_Z_of_nat.
    f_equal. apply count_over_keys.
    + apply NoDup_nodup.
    + intros x Hx. apply nodup_In, sort_In. exact Hx.
  - apply Forall_forall. intros size Hs. apply in_map_iff in Hs.
    destruct Hs as (r & <- & Hr).
    apply (proj1 (nodup_In Z.eq_dec _ _)) in Hr.
    apply (proj1 (sort_In _ _)) in Hr.
    apply (proj1 (count_occ_In Z.eq_dec _ _)) in Hr. lia.
  - rewrite length_map. apply Permutation_length.
    apply NoDup_Permutation; try apply NoDup_nodup.
    intros x. rewrite !nodup_In. apply sort_In.
Qed.

(** ** Test sizes that are not fractions *)

(** A cut that is zero, or at most minus the number of groups, leaves no
    group for training. *)
Lemma split_groups_no_train (g : list Z) (test_size : number) (c : Z) :
  group_cut g test_size = Ok c ->
  c = 0%Z \/ (c <= - Z.of_nat (length g))%Z ->
  split_groups (Some g) test_size = Ok (Some [], Some g).
Proof.
  intros Hcut Hc. rewrite (split_groups_of_cut _ _ Hcut).
  unfold Np.slice_to, Np.slice_from.
  destruct (Z.leb_spec 0 c) as [H0 | H0].
  - assert (c = 0%Z \/ length g = 0%nat) as [-> | Hl] by lia.
    + reflexivity.
    + destruct g; [|discriminate]. now rewrite firstn_nil, skipn_nil.
  - replace (length g - Z.to_nat (- c))%nat with 0%nat by lia. reflexivity.
Qed.

(** X9: a test size of 1, or of 2 and more, given as an [int] (a number of
    rows rather than a fraction), leaves no group for training: the cut
    [len(group_ids) * (1 - test_size)] is not positive, the train groups are
    empty and the test groups are all the groups. *)
Theorem split_groups_row_count (g : list Z) (test_size : Z) :
  (test_size = 1 \/ 2 <= test_size)%Z ->
  split_groups (Some g) (PyInt test_size) = Ok (Some [], Some g).
Proof.
  intros Hts.
  apply split_groups_no_train
    with (c := (Z.of_nat (length g) * (1 - test_size))%Z).
  - reflexivity.
  - destruct Hts as [-> | H2]; [left; lia | right; nia].
Qed.

Lemma split_groups_row_count_witness :
  split_groups (Some [3; 3; 2]%Z) (PyInt 2) = Ok (Some [], Some [3; 3; 2]%Z).
Proof. apply split_groups_row_count. right. lia. Defined.

(** The float [1.0]: [1 - 1.0] is [0.0], and so is the product. *)
Example split_groups_float_one :
  split_groups (Some [3; 3; 2]%Z) (PyFloat 1%float) =
  Ok (Some [], Some [3; 3; 2]%Z).
Proof. reflexivity. Qed.

(** ** Inverting traces *)

Lemma in_bind_inv (A B : Type) (c : Prog A) (f : A -> Prog B) (ev : event) :
  In ev (snd (bind c f)) ->
  In ev (snd c) \/ exists a, c = (Returns a, snd c) /\ In ev (snd (f a)).
Proof.
  unfold bind. destruct c as [[a | s] t]; simpl; [|auto].
  destruct (f a) as [r t'] eqn:E. simpl. intros H.
  apply in_app_or in H. destruct H as [H | H]; [now left|].
  right. exists a. rewrite E. auto.
Qed.

Lemma call_Returns_inv (A : Type) (ev : event) (r : res A) (a : A)
    (t : list event) :
  call ev r = (Returns a, t) -> r = Ok a.
Proof. unfold call. destruct r; intros H; now inversion H. Qed.

Lemma lift_Returns_inv (A : Type) (r : res A) (a : A) (t : list event) :
  lift r = (Returns a, t) -> r = Ok a.
Proof. unfold lift, ret. destruct r; intros H; now inversion H. Qed.

Lemma in_call (A : Type) (ev' : event) (r : res A) (ev : event) :
  In ev (snd (call ev' r)) -> ev = ev'.
Proof. unfold call. destruct r; simpl; intros [H | []]; now subst. Qed.

Lemma in_lift (A : Type) (r : res A) (ev : event) :
  In ev (snd (lift r)) -> False.
Proof. unfold lift, ret. destruct r; simpl; auto. Qed.

Lemma in_print (file : stream) (t : text) (ev : event) :
  In ev (snd (print file t)) -> ev = Print file t.
Proof. simpl. intros [H | []]. now subst. Qed.

Lemma for_each_call_inv (A : Type) (xs : list A) (evf : A -> event)
    (rf : A -> res unit) (u : unit) (t : list event) :
  for_each xs (fun x => call (evf x) (rf x)) = (Returns u, t) ->
  Forall (fun x => rf x = Ok tt) xs /\ t = map evf xs.
Proof.
  revert u t. induction xs as [| x xs IH]; intros u t H; simpl in H.
  - inversion H. split; [constructor | reflexivity].
  - unfold bind in H at 1. destruct (rf x) as [[] | e] eqn:E; simpl in H;
      [|discriminate].
    destruct (for_each xs _) as [[v | s] t'] eqn:E'; simpl in H;
      inversion H; subst.
    destruct (IH _ _ eq_refl) as [Hall ->]. split; [|reflexivity].
    constructor; assumption.
Qed.

Lemma for_each_call_ok (A : Type) (xs : list A) (evf : A -> event)
    (rf : A -> res unit) :
  Forall (fun x => rf x = Ok tt) xs ->
  for_each xs (fun x => call (evf x) (rf x)) = (Returns tt, map evf xs).
Proof.
  induction 1 as [| x xs Hx _ IH]; simpl; [reflexivity|].
  rewrite Hx, IH. reflexivity.
Qed.

Lemma in_for_each_call (A : Type) (xs : list A) (evf : A -> event)
    (rf : A -> res unit) (ev : event) :
  In ev (snd (for_each xs (fun x => call (evf x) (rf x)))) ->
  exists x, In x xs /\ ev = evf x.
Proof.
  induction xs as [| x xs IH]; simpl; [contradiction|].
  intros H. apply in_bind_inv in H. destruct H as [H | (a & _ & H)].
  - apply in_call in H. exists x. split; [now left | assumption].
  - destruct (IH H) as (y & Hy & ->). exists y. split; [now right | reflexivity].
Qed.

Ltac inv_head H :=
  first [ apply in_call in H; discriminate H
        | apply in_print in H; discriminate H
        | apply in_lift in H; contradiction H ].

Ltac inv_bind H a Ha :=
  apply in_bind_inv in H; destruct H as [H | (a & Ha & H)]; [inv_head H|].

Lemma pickle_block_inv (env : Env) (m : Ranker) (path : string) :
  (forall ev,
     In ev (snd (try_finally (call (PickleDump m path) (pickle_dump env m path))
                             (Returns tt, [CloseFile path]))) ->
     ev = PickleDump m path \/ ev = CloseFile path) /\
  (forall a t,
     try_finally (call (PickleDump m path) (pickle_dump env m path))
                 (Returns tt, [CloseFile path]) = (Returns a, t) ->
     pickle_dump env m path = Ok tt).
Proof.
  unfold try_finally, call.
  destruct (pickle_dump env m path) as [[] | e]; simpl; split;
    try (intros ev [H | [H | []]]; subst; auto);
    try (intros a t H; now inversion H).
Qed.

(** When the body of the [try] prints a result, every call before has
    returned, and the result is built from what they returned. *)
Lemma train_body_printed (env : Env) (output_path : string) (hp : dict json)
    (X_train X_test : Frame) (y_test : list Z) (train_pool test_pool : Pool)
    (r : Result) :
  In (Print Stdout (JsonDumps r))
     (snd (train_body env output_path hp X_train X_test y_test
                      train_pool test_pool)) ->
  exists predictions feature_importance,
    body_succeeded env output_path hp X_train X_test y_test
                   train_pool test_pool predictions feature_importance r.
Proof.
  unfold train_body. intros H.
  apply in_bind_inv in H. destruct H as [H | (u0 & Hparams & H)].
  { apply in_for_each_call in H. destruct H as (kv & _ & H). discriminate H. }
  apply for_each_call_inv in Hparams. destruct Hparams as [Hparams _].
  inv_bind H u1 H1.
  inv_bind H u2 Hranker. apply call_Returns_inv in Hranker.
  inv_bind H u3 Hfit. apply call_Returns_inv in Hfit.
  inv_bind H u4 H4.
  inv_bind H predictions Hpred. apply call_Returns_inv in Hpred.
  inv_bind H v4 Hv4. apply lift_Returns_inv in Hv4.
  inv_bind H v3 Hv3. apply lift_Returns_inv in Hv3.
  inv_bind H v2 Hv2. apply lift_Returns_inv in Hv2.
  inv_bind H acc Hacc. apply lift_Returns_inv in Hacc.
  inv_bind H u5 Hl4. apply call_Returns_inv in Hl4.
  inv_bind H u6 Hl3. apply call_Returns_inv in Hl3.
  inv_bind H u7 Hl2. apply call_Returns_inv in Hl2.
  inv_bind H u8 Hla. apply call_Returns_inv in Hla.
  inv_bind H u9 Hopen. apply call_Returns_inv in Hopen.
  apply in_bind_inv in H. destruct H as [H | (u10 & Hdump & H)].
  { apply (proj1 (pickle_block_inv env _ _)) in H.
    destruct H as [H | H]; discriminate H. }
  apply (proj2 (pickle_block_inv env _ _)) in Hdump.
  inv_bind H u11 Hart. apply call_Returns_inv in Hart.
  inv_bind H feature_importance Himp. apply call_Returns_inv in Himp.
  inv_bind H u12 Hjson. apply call_Returns_inv in Hjson.
  apply in_print in H. injection H as ->.
  destruct u2, u3, u5, u6, u7, u8, u9, u11, u12.
  exists predictions, feature_importance.
  unfold body_succeeded, make_result. simpl.
  repeat (split; [assumption|]). reflexivity.
Qed.

Lemma prepare_events (env : Env) (config : Config) :
  emits_only prepare_event (prepare env config).
Proof.
  unfold prepare.
  apply emits_bind; [apply emits_call; exact I | intros _].
  apply emits_bind; [apply emits_print; exact I | intros _].
  apply emits_bind;
    [apply load_data_emits; [exact I | intros e; exact I] | intros loaded].
  destruct loaded as [[X y] group_ids].
  apply emits_bind; [apply emits_call; exact I | intros parts].
  destruct parts as [[[X_train X_test] y_train] y_test].
  apply emits_bind; [apply emits_lift | intros groups].
  destruct groups as [train_groups test_groups].
  apply emits_bind; [apply emits_call; exact I | intros _].
  apply emits_bind; [apply emits_call; exact I | intros _].
  apply emits_ret.
Qed.

Lemma prepare_event_in (env : Env) (config : Config) (ev : event) :
  In ev (snd (prepare env config)) -> prepare_event ev.
Proof.
  intros H. assert (Hp := prepare_events env config).
  unfold emits_only in Hp. rewrite Forall_forall in Hp. now apply Hp.
Qed.

(** A result is printed only by the body of the [try], after the
    preparation and the start of the run have returned. *)
Lemma printed_in_body (env : Env) (config : Config) (r : Result) :
  In (Print Stdout (JsonDumps r)) (trace (train_catboost env config)) ->
  exists p,
    prepare env config = (Returns p, snd (prepare env config)) /\
    mlflow_start_run env "catboost_training" = Ok tt /\
    In (Print Stdout (JsonDumps r))
       (snd (train_body env (prep_output_path p) (prep_hyperparameters p)
                        (prep_X_train p) (prep_X_test p) (prep_y_test p)
                        (prep_train_pool p) (prep_test_pool p))).
Proof.
  unfold train_catboost, trace. intros H.
  apply in_bind_inv in H. destruct H as [H | (p & Hp & H)].
  { apply prepare_event_in in H. contradiction H. }
  exists p. split; [exact Hp|].
  unfold tracked_run in H.
  apply in_bind_inv in H. destruct H as [H | (u & Hs & H)].
  { apply in_call in H. discriminate H. }
  apply call_Returns_inv in Hs. destruct u. split; [exact Hs|].
  rewrite try_finally_trace in H. apply in_app_or in H.
  destruct H as [H | [H | []]]; [exact H | discriminate H].
Qed.

Lemma train_body_of_success (env : Env) (output_path : string) (hp : dict json)
    (X_train X_test : Frame) (y_test : list Z) (train_pool test_pool : Pool)
    (predictions feature_importance : list Q) (r : Result) :
  body_succeeded env output_path hp X_train X_test y_test
                 train_pool test_pool predictions feature_importance r ->
  train_body env output_path hp X_train X_test y_test train_pool test_pool =
  (Returns tt, body_calls output_path hp X_test train_pool test_pool r).
Proof.
  unfold body_succeeded.
  intros (Hparams & Hranker & Hfit & Hpred & Hv4 & Hv3 & Hv2 & Hacc & Hl4 & Hl3
          & Hl2 & Hla & Hopen & Hdump & Hart & Himp & Hjson & Hr).
  unfold train_body.
  rewrite (for_each_call_ok _ _ Hparams).
  rewrite Hranker, Hfit, Hpred.
  cbn -[calculate_ndcg calculate_accuracy String.append sorted_desc
        importance_dict firstn map].
  rewrite Hv4, Hv3, Hv2, Hacc.
  cbn -[calculate_ndcg calculate_accuracy String.append sorted_desc
        importance_dict firstn map].
  rewrite Hl4, Hl3, Hl2, Hla, Hopen, Hdump, Hart, Himp.
  cbn -[String.append sorted_desc importance_dict firstn map].
  unfold make_result in Hr. rewrite <- Hr, Hjson.
  reflexivity.
Qed.

(** ** A run that prints a result *)

(** X10: when [train_catboost] prints a result, the preparation and the
    start of the run have returned, every call of the body has returned, the
    result is built from what they returned (the metrics are those of the
    predictions on the held-out rows), and the calls of the run are the
    preparation, the start, the calls of the body in order, and the end of
    the run, and no others. *)
Theorem printed_run (env : Env) (config : Config) (r : Result) :
  In (Print Stdout (JsonDumps r)) (trace (train_catboost env config)) ->
  exists p predictions feature_importance,
    prepare env config = (Returns p, snd (prepare env config)) /\
    mlflow_start_run env "catboost_training" = Ok tt /\
    body_succeeded env (prep_output_path p) (prep_hyperparameters p)
                   (prep_X_train p) (prep_X_test p) (prep_y_test p)
                   (prep_train_pool p) (prep_test_pool p)
                   predictions feature_importance r /\
    trace (train_catboost env config) =
      snd (prepare env config)
      ++ StartRun "catboost_training"
      :: body_calls (prep_output_path p) (prep_hyperparameters p)
                    (prep_X_test p) (prep_train_pool p) (prep_test_pool p) r
      ++ [EndRun].
Proof.
  intros H. destruct (printed_in_body env config r H) as (p & Hp & Hs & Hb).
  destruct (train_body_printed _ _ _ _ _ _ _ _ _ Hb) as (predictions & fi & Hok).
  exists p, predictions, fi.
  split; [exact Hp|]. split; [exact Hs|]. split; [exact Hok|].
  unfold train_catboost, trace.
  assert (Ht := tracked_run_started env p Hs).
  rewrite (train_body_of_success Hok) in Ht. simpl snd in Ht.
  rewrite Hp. unfold bind.
  destruct (tracked_run env p) as [o t]. simpl in *. now rewrite Ht.
Qed.

Lemma printed_run_witness :
  exists p predictions feature_importance,
    prepare sample_env sample_config =
      (Returns p, snd (prepare sample_env sample_config)) /\
    mlflow_start_run sample_env "catboost_training" = Ok tt /\
    body_succeeded sample_env (prep_output_path p) (prep_hyperparameters p)
                   (prep_X_train p) (prep_X_test p) (prep_y_test p)
                   (prep_train_pool p) (prep_test_pool p)
                   predictions feature_importance sample_result /\
    trace (train_catboost sample_env sample_config) =
      snd (prepare sample_env sample_config)
      ++ StartRun "catboost_training"
      :: body_calls (prep_output_path p) (prep_hyperparameters p)
                    (prep_X_test p) (prep_train_pool p) (prep_test_pool p)
                    sample_result
      ++ [EndRun].
Proof.
  apply (@printed_run sample_env sample_config sample_result).
  cbv -[normalise discounted_gain IZR].
  repeat first [left; reflexivity | right].
Defined.

Lemma ndcg_Ok_bounds (y_true : list Z) (y_pred : list Q) (k : Z) (v : R) :
  (0 <= k)%Z -> calculate_ndcg y_true y_pred k = Ok v -> (0 <= v <= 1)%R.
Proof.
  intros Hk E.
  destruct (calculate_ndcg_cases y_true y_pred k) as [(l & Ht & E') | [E' _]];
    [|congruence].
  rewrite E' in E. apply Ok_inj in E. subst v.
  apply normalise_bounds. split; [apply discounted_gain_nonneg|].
  eapply dcg_le_idcg_any_length; [left; exact Hk | exact Ht].
Qed.

Lemma accuracy_Ok_values (y_true : list Z) (y_pred : list Q) (v : R) :
  calculate_accuracy y_true y_pred = Ok v -> v = 0%R \/ v = 1%R.
Proof.
  unfold calculate_accuracy.
  destruct (Np.argmax y_pred) as [top1 | e]; [|discriminate].
  destruct (nth_error y_true top1) as [rk |]; [|discriminate].
  intros E. apply Ok_inj in E. subst v. destruct (rk <=? 2)%Z; auto.
Qed.

(** X11: every result [train_catboost] prints reports NDCG@4, NDCG@3 and
    NDCG@2 within [0, 1] and an accuracy of exactly 0 or 1, whatever the
    model predicted. *)
Theorem reported_metrics_bounded (env : Env) (config : Config) (r : Result) :
  In (Print Stdout (JsonDumps r)) (trace (train_catboost env config)) ->
  (0 <= ndcg4 (metrics r) <= 1)%R /\
  (0 <= ndcg3 (metrics r) <= 1)%R /\
  (0 <= ndcg2 (metrics r) <= 1)%R /\
  (accuracy (metrics r) = 0%R \/ accuracy (metrics r) = 1%R).
Proof.
  intros H. destruct (printed_in_body env config r H) as (p & _ & _ & Hb).
  destruct (train_body_printed _ _ _ _ _ _ _ _ _ Hb) as (predictions & fi & Hok).
  destruct Hok as (_ & _ & _ & _ & H4 & H3 & H2 & Ha & _).
  repeat split.
  - eapply ndcg_Ok_bounds; [|exact H4]. lia.
  - eapply ndcg_Ok_bounds; [|exact H4]. lia.
  - eapply ndcg_Ok_bounds; [|exact H3]. lia.
  - eapply ndcg_Ok_bounds; [|exact H3]. lia.
  - eapply ndcg_Ok_bounds; [|exact H2]. lia.
  - eapply ndcg_Ok_bounds; [|exact H2]. lia.
  - eapply accuracy_Ok_values. exact Ha.
Qed.

Lemma reported_metrics_bounded_witness :
  (0 <= ndcg4 (metrics sample_result) <= 1)%R /\
  (0 <= ndcg3 (metrics sample_result) <= 1)%R /\
  (0 <= ndcg2 (metrics sample_result) <= 1)%R /\
  (accuracy (metrics sample_result) = 0%R \/
   accuracy (metrics sample_result) = 1%R).
Proof.
  apply (@reported_metrics_bounded sample_env sample_config sample_result).
  cbv -[normalise discounted_gain IZR].
  repeat first [left; reflexivity | right].
Defined.

(** ** The feature importances of the result *)

Lemma insert_desc_perm (x : string * Q) (l : list (string * Q)) :
  Permutation (insert_desc x l) (x :: l).
Proof.
  induction l as [| y l IH]; simpl.
  - apply Permutation_refl.
  - destruct (Qle_bool (snd y) (snd x)).
    + apply Permutation_refl.
    + eapply Permutation_trans; [apply perm_skip, IH | apply perm_swap].
Qed.

Lemma sorted_desc_perm (items : list (string * Q)) :
  Permutation (sorted_desc items) items.
Proof.
  induction items as [| x items IH]; simpl.
  - apply perm_nil.
  - eapply Permutation_trans; [apply insert_desc_perm | apply perm_skip, IH].
Qed.

Lemma insert_desc_sorted (x : string * Q) (l : list (string * Q)) :
  StronglySorted importance_ge l -> StronglySorted importance_ge (insert_desc x l).
Proof.
  induction 1 as [| y l Hs IH Hall]; simpl.
  - constructor; constructor.
  - destruct (Qle_bool (snd y) (snd x)) eqn:E.
    + apply Qle_bool_iff in E. constructor.
      * constructor; assumption.
      * constructor; [exact E|].
        eapply Forall_impl; [|exact Hall]. intros a Ha.
        unfold importance_ge in *. eapply Qle_trans; eassumption.
    + assert (Hlt : snd x < snd y).
      { apply Qnot_le_lt. intros Hle. apply Qle_bool_iff in Hle. congruence. }
      constructor; [assumption|].
      eapply Permutation_Forall; [apply Permutation_sym, insert_desc_perm|].
      constructor; [|assumption]. unfold importance_ge. now apply Qlt_le_weak.
Qed.

Lemma sorted_desc_sorted (items : list (string * Q)) :
  StronglySorted importance_ge (sorted_desc items).
Proof.
  induction items as [| x items IH]; simpl.
  - constructor.
  - apply insert_desc_sorted, IH.
Qed.

Lemma firstn_StronglySorted (A : Type) (R : A -> A -> Prop) (n : nat)
    (l : list A) :
  StronglySorted R l -> StronglySorted R (firstn n l).
Proof.
  intros Hs. revert n. induction Hs as [| x l Hs IH Hall]; intros [| n]; simpl;
    try constructor.
  - apply IH.
  - apply Forall_forall. intros a Ha. rewrite Forall_forall in Hall.
    apply Hall. eapply firstn_In'. exact Ha.
Qed.

Lemma dict_set_keys (V : Type) (d : dict V) (key : string) (v : V) :
  map fst (dict_set d key v) =
  if in_dec string_dec key (map fst d) then map fst d else map fst d ++ [key].
Proof.
  induction d as [| [k v'] d IH]; simpl; [reflexivity|].
  destruct (String.eqb_spec k key) as [E | Hne]; simpl.
  - subst k. destruct (string_dec key key); [reflexivity | congruence].
  - rewrite IH. destruct (string_dec k key) as [E | Hne']; [congruence|].
    destruct (in_dec string_dec key (map fst d)); reflexivity.
Qed.

Lemma dict_set_NoDup (V : Type) (d : dict V) (key : string) (v : V) :
  NoDup (map fst d) -> NoDup (map fst (dict_set d key v)).
Proof.
  intros Hnd. rewrite dict_set_keys.
  destruct (in_dec string_dec key (map fst d)) as [Hin | Hnot]; [assumption|].
  apply NoDup_app; try assumption.
  - constructor; [intros [] | constructor].
  - intros x Hx [<- | []]. contradiction.
Qed.

Lemma dict_set_key_in (V : Type) (d : dict V) (key : string) (v : V) (x : string) :
  In x (map fst (dict_set d key v)) -> x = key \/ In x (map fst d).
Proof.
  rewrite dict_set_keys.
  destruct (in_dec string_dec key (map fst d)); [now right|].
  intros H. apply in_app_or in H. destruct H as [H | [<- | []]]; auto.
Qed.

Lemma fold_dict_set_keys (pairs : list (string * Q)) (d : dict Q) :
  NoDup (map fst d) ->
  NoDup (map fst (fold_left (fun d p => dict_set d (fst p) (snd p)) pairs d)) /\
  (forall x,
     In x (map fst (fold_left (fun d p => dict_set d (fst p) (snd p)) pairs d)) ->
     In x (map fst d) \/ In x (map fst pairs)).
Proof.
  revert d. induction pairs as [| [k v] pairs IH]; intros d Hnd; simpl.
  - split; [assumption | auto].
  - destruct (IH (dict_set d k v) (dict_set_NoDup d k v Hnd)) as [H1 H2].
    split; [assumption|]. intros x Hx.
    destruct (H2 x Hx) as [H | H]; [|auto].
    apply dict_set_key_in in H. destruct H as [-> | H]; auto.
Qed.

Lemma importance_dict_keys (feature_names : list string) (importance : list Q) :
  NoDup (map fst (importance_dict feature_names importance)) /\
  incl (map fst (importance_dict feature_names importance)) feature_names.
Proof.
  unfold importance_dict.
  destruct (fold_dict_set_keys (combine feature_names importance) [])
    as [H1 H2]; [constructor|].
  split; [assumption|]. intros x Hx.
  destruct (H2 x Hx) as [[] | H].
  apply in_map_iff in H. destruct H as ([n i] & <- & Hin).
  simpl. eapply in_combine_l. exact Hin.
Qed.

Lemma firstn_NoDup (A : Type) (n : nat) (l : list A) :
  NoDup l -> NoDup (firstn n l).
Proof.
  intros H. rewrite <- (firstn_skipn n l) in H.
  now apply NoDup_app_remove_r in H.
Qed.

(** X12: the feature importances of a printed result are at most ten, in
    descending order of importance, with distinct names, each the name of a
    column of the training frame. *)
Theorem reported_importances (env : Env) (config : Config) (r : Result) :
  In (Print Stdout (JsonDumps r)) (trace (train_catboost env config)) ->
  (length (featureImportance r) <= 10)%nat /\
  StronglySorted importance_ge (featureImportance r) /\
  NoDup (map fst (featureImportance r)) /\
  exists p,
    prepare env config = (Returns p, snd (prepare env config)) /\
    incl (map fst (featureImportance r)) (map fst (prep_X_train p)).
Proof.
  intros H. destruct (printed_in_body env config r H) as (p & Hp & _ & Hb).
  destruct (train_body_printed _ _ _ _ _ _ _ _ _ Hb) as (predictions & fi & Hok).
  assert (Hr : featureImportance r =
               firstn 10 (sorted_desc (importance_dict (map fst (prep_X_train p)) fi))).
  { destruct Hok as (_ & _ & _ & _ & _ & _ & _ & _ & _ & _ & _ & _ & _ & _ & _
                     & _ & _ & Hr).
    rewrite Hr at 1. reflexivity. }
  rewrite Hr.
  destruct (importance_dict_keys (map fst (prep_X_train p)) fi) as [Hnd Hincl].
  assert (Hperm := sorted_desc_perm (importance_dict (map fst (prep_X_train p)) fi)).
  split; [|split; [|split]].
  - rewrite length_firstn. lia.
  - apply firstn_StronglySorted, sorted_desc_sorted.
  - rewrite <- firstn_map. apply firstn_NoDup.
    eapply Permutation_NoDup; [|exact Hnd].
    apply Permutation_map, Permutation_sym, Hperm.
  - exists p. split; [exact Hp|]. intros x Hx.
    apply Hincl. rewrite <- firstn_map in Hx. apply firstn_In' in Hx.
    eapply Permutation_in; [|exact Hx]. apply Permutation_map, Hperm.
Qed.

Lemma reported_importances_witness :
  (length (featureImportance sample_result) <= 10)%nat /\
  StronglySorted importance_ge (featureImportance sample_result) /\
  NoDup (map fst (featureImportance sample_result)) /\
  exists p,
    prepare sample_env sample_config =
      (Returns p, snd (prepare sample_env sample_config)) /\
    incl (map fst (featureImportance sample_result)) (map fst (prep_X_train p)).
Proof.
  apply (@reported_importances sample_env sample_config sample_result).
  cbv -[normalise discounted_gain IZR].
  repeat first [left; reflexivity | right].
Defined.

(** ** Outcomes *)

Lemma raises_ret (A : Type) (a : A) : raises_exceptions (ret a).
Proof. intros s H. discriminate H. Qed.

Lemma raises_call (A : Type) (ev : event) (r : res A) :
  raises_exceptions (call ev r).
Proof.
  intros s. unfold call. destruct r; simpl; intros H; inversion H. eauto.
Qed.

Lemma raises_lift (A : Type) (r : res A) : raises_exceptions (lift r).
Proof.
  intros s. unfold lift, ret. destruct r; simpl; intros H; inversion H. eauto.
Qed.

Lemma raises_print (file : stream) (t : text) : raises_exceptions (print file t).
Proof. intros s H. discriminate H. Qed.

Lemma raises_bind (A B : Type) (c : Prog A) (f : A -> Prog B) :
  raises_exceptions c -> (forall a, raises_exceptions (f a)) ->
  raises_exceptions (bind c f).
Proof.
  unfold raises_exceptions, bind. intros Hc Hf s.
  destruct c as [[a | s'] t]; simpl in *.
  - specialize (Hf a). destruct (f a) as [r t']. simpl in *. apply Hf.
  - intros H. inversion H; subst. now apply Hc.
Qed.

Lemma raises_try_finally (A : Type) (body : Prog A) (final : Prog unit) :
  raises_exceptions body -> raises_exceptions final ->
  raises_exceptions (try_finally body final).
Proof.
  unfold raises_exceptions. intros Hb Hf s. rewrite try_finally_outcome.
  destruct (fst final) as [u | s'] eqn:E; intros H.
  - now apply Hb.
  - inversion H; subst. now apply Hf.
Qed.

Lemma raises_try_except (A : Type) (body : Prog A) (handler : exn -> Prog A) :
  raises_exceptions body -> (forall e, raises_exceptions (handler e)) ->
  raises_exceptions (try_except body handler).
Proof.
  unfold raises_exceptions, try_except. intros Hb Hh s.
  destruct body as [[a | [e | n]] t]; simpl in *.
  - discriminate.
  - specialize (Hh e). destruct (handler e) as [r t']. simpl in *. apply Hh.
  - apply Hb.
Qed.

Lemma raises_for_each (A : Type) (xs : list A) (body : A -> Prog unit) :
  (forall x, raises_exceptions (body x)) ->
  raises_exceptions (for_each xs body).
Proof.
  intros Hb. induction xs as [| x xs IH]; simpl.
  - apply raises_ret.
  - apply raises_bind; [apply Hb | intros _; exact IH].
Qed.

Ltac raises_step :=
  first
    [ apply raises_ret
    | apply raises_lift
    | apply raises_call
    | apply raises_print
    | apply raises_for_each; intros ?
    | apply raises_try_finally
    | apply raises_try_except; [| intros ?]
    | apply raises_bind; [| intros ?] ].

Lemma load_data_raises (env : Env) (data_path : string) :
  raises_exceptions (load_data env data_path).
Proof.
  unfold load_data, load_data_body. apply raises_try_except.
  - repeat raises_step.
  - intros e. apply raises_bind; [apply raises_print|].
    intros _ s H. inversion H. eauto.
Qed.

(** [train_catboost] never exits the interpreter itself: what it raises is
    an exception of a library call or of a metric. *)
Lemma train_catboost_raises (env : Env) (config : Config) :
  raises_exceptions (train_catboost env config).
Proof.
  unfold train_catboost. apply raises_bind.
  - unfold prepare.
    apply raises_bind; [apply raises_call | intros _].
    apply raises_bind; [apply raises_print | intros _].
    apply raises_bind; [apply load_data_raises | intros loaded].
    destruct loaded as [[X y] group_ids].
    apply raises_bind; [apply raises_call | intros parts].
    destruct parts as [[[X_train X_test] y_train] y_test].
    apply raises_bind; [apply raises_lift | intros groups].
    destruct groups as [train_groups test_groups].
    apply raises_bind; [apply raises_call | intros _].
    apply raises_bind; [apply raises_call | intros _].
    apply raises_ret.
  - intros p. unfold tracked_run, train_body. repeat raises_step.
Qed.

Lemma prepare_load_failure (env : Env) (config : Config) (e : exn) :
  path_mkdir env (output_path_of config) = Ok tt ->
  fst (load_data_body env (data_path_of config)) = Raises (Exception e) ->
  prepare env config =
  (Raises (Exception e),
   [Mkdir (output_path_of config);
    Print Stdout
      (Line ("Loading data from " ++ data_path_of config ++ "...")%string);
    ReadCsv (data_path_of config);
    load_diagnostic e]).
Proof.
  intros Hmk Hload. unfold prepare, load_data. rewrite Hmk.
  assert (Hb := load_data_body_cases env (data_path_of config)).
  destruct (read_csv env (data_path_of config)) as [df | e'].
  - destruct (rank df) as [y |]; rewrite Hb in Hload |- *; simpl in Hload.
    + discriminate Hload.
    + inversion Hload; subst. reflexivity.
  - rewrite Hb in Hload |- *. simpl in Hload. inversion Hload; subst.
    reflexivity.
Qed.

(** X13: when the data cannot be loaded (reading raises, or there is no
    [rank] column) and the output directory was made, [train_catboost]
    raises that exception after four calls: the directory, the progress
    line, the read and the diagnostic on standard error; no pool is built
    and no tracking run is started. *)
Theorem load_failure_aborts (env : Env) (config : Config) (e : exn) :
  path_mkdir env (output_path_of config) = Ok tt ->
  fst (load_data_body env (data_path_of config)) = Raises (Exception e) ->
  train_catboost env config =
    (Raises (Exception e),
     [Mkdir (output_path_of config);
      Print Stdout
        (Line ("Loading data from " ++ data_path_of config ++ "...")%string);
      ReadCsv (data_path_of config);
      load_diagnostic e]) /\
  exit_status (train_catboost env config) = 1%Z.
Proof.
  intros Hmk Hload.
  assert (H : train_catboost env config =
              (Raises (Exception e),
               [Mkdir (output_path_of config);
                Print Stdout
                  (Line ("Loading data from " ++ data_path_of config ++ "...")%string);
                ReadCsv (data_path_of config);
                load_diagnostic e])).
  { unfold train_catboost. now rewrite (prepare_load_failure _ _ Hmk Hload). }
  split; [exact H | now rewrite H].
Qed.

Lemma load_failure_aborts_witness :
  train_catboost missing_file_env sample_config =
    (Raises (Exception (LibraryError "FileNotFoundError"
                                     "No such file or directory")),
     [Mkdir (output_path_of sample_config);
      Print Stdout
        (Line ("Loading data from " ++ data_path_of sample_config ++ "...")%string);
      ReadCsv (data_path_of sample_config);
      load_diagnostic (LibraryError "FileNotFoundError"
                                    "No such file or directory")]) /\
  exit_status (train_catboost missing_file_env sample_config) = 1%Z.
Proof. apply load_failure_aborts; reflexivity. Defined.

(** X14: [mlflow.end_run] is called exactly when the preparation returned
    and [mlflow.start_run] returned: a failure before the [try], that of
    [start_run] included, leaves the run unended. *)
Theorem end_run_iff_started (env : Env) (config : Config) :
  In EndRun (trace (train_catboost env config)) <->
  (exists p, fst (prepare env config) = Returns p) /\
  mlflow_start_run env "catboost_training" = Ok tt.
Proof.
  unfold train_catboost, trace. split.
  - intros H. apply in_bind_inv in H. destruct H as [H | (p & Hp & H)].
    { apply prepare_event_in in H. contradiction H. }
    split; [exists p; now rewrite Hp|].
    unfold tracked_run in H.
    apply in_bind_inv in H. destruct H as [H | (u & Hs & H)].
    { apply in_call in H. discriminate H. }
    apply call_Returns_inv in Hs. now destruct u.
  - intros [[p Hp] Hs].
    assert (Ht := tracked_run_started env p Hs).
    destruct (prepare env config) as [o t]. simpl in Hp. subst o.
    unfold bind. destruct (tracked_run env p) as [o t']. simpl in *. subst t'.
    apply in_or_app. right. right. apply in_or_app. right. now left.
Qed.

(** X15: once the run has started, what [train_catboost] returns or raises
    is what the body of the [try] returns or raises, unless
    [mlflow.end_run] raises: its exception then replaces the outcome of the
    body, an exception of the body included. *)
Theorem outcome_after_finally (env : Env) (config : Config) (p : Prepared) :
  fst (prepare env config) = Returns p ->
  mlflow_start_run env "catboost_training" = Ok tt ->
  fst (train_catboost env config) =
  match mlflow_end_run env with
  | Ok _ =>
      fst (train_body env (prep_output_path p) (prep_hyperparameters p)
                      (prep_X_train p) (prep_X_test p) (prep_y_test p)
                      (prep_train_pool p) (prep_test_pool p))
  | Raise e => Raises (Exception e)
  end.
Proof.
  intros Hp Hs. unfold train_catboost.
  destruct (prepare env config) as [o t]. simpl in Hp. subst o.
  unfold bind at 1.
  assert (H : fst (tracked_run env p) =
              match mlflow_end_run env with
              | Ok _ =>
                  fst (train_body env (prep_output_path p)
                                  (prep_hyperparameters p)
                                  (prep_X_train p) (prep_X_test p)
                                  (prep_y_test p)
                                  (prep_train_pool p) (prep_test_pool p))
              | Raise e => Raises (Exception e)
              end).
  { unfold tracked_run. rewrite Hs. unfold call at 1, bind.
    assert (Ho := try_finally_outcome
                    (train_body env (prep_output_path p)
                                (prep_hyperparameters p)
                                (prep_X_train p) (prep_X_test p)
                                (prep_y_test p)
                                (prep_train_pool p) (prep_test_pool p))
                    (call EndRun (mlflow_end_run env))).
    destruct (try_finally _ _) as [o t']. simpl in *. rewrite Ho.
    unfold call. destruct (mlflow_end_run env); reflexivity. }
  destruct (tracked_run env p) as [o t']. simpl in *. exact H.
Qed.

Lemma outcome_after_finally_witness :
  fst (train_catboost failing_fit_env sample_config) =
  match mlflow_end_run failing_fit_env with
  | Ok _ =>
      fst (train_body failing_fit_env
             "/tmp/models" [("iterations", JInt 10)]
             [("speed", FloatCol [61 # 1; 59 # 1; 50 # 1]);
              ("jockey", ObjectCol ["a"; "b"; "c"])]
             [("speed", FloatCol [55 # 1; 63 # 1; 48 # 1]);
              ("jockey", ObjectCol ["a"; "b"; "c"])]
             [3; 1; 4]%Z
             {| data := [("speed", FloatCol [61 # 1; 59 # 1; 50 # 1]);
                         ("jockey", ObjectCol ["a"; "b"; "c"])];
                label := [1; 2; 4]%Z;
                group_id := Some [3]%Z;
                cat_features := ["jockey"] |}
             {| data := [("speed", FloatCol [55 # 1; 63 # 1; 48 # 1]);
                         ("jockey", ObjectCol ["a"; "b"; "c"])];
                label := [3; 1; 4]%Z;
                group_id := Some [3]%Z;
                cat_features := ["jockey"] |})
  | Raise e => Raises (Exception e)
  end.
Proof.
  apply (@outcome_after_finally failing_fit_env sample_config
           {| prep_output_path := "/tmp/models";
              prep_hyperparameters := [("iterations", JInt 10)];
              prep_X_train := [("speed", FloatCol [61 # 1; 59 # 1; 50 # 1]);
                               ("jockey", ObjectCol ["a"; "b"; "c"])];
              prep_X_test := [("speed", FloatCol [55 # 1; 63 # 1; 48 # 1]);
                              ("jockey", ObjectCol ["a"; "b"; "c"])];
              prep_y_test := [3; 1; 4]%Z;
              prep_train_pool :=
                {| data := [("speed", FloatCol [61 # 1; 59 # 1; 50 # 1]);
                            ("jockey", ObjectCol ["a"; "b"; "c"])];
                   label := [1; 2; 4]%Z;
                   group_id := Some [3]%Z;
                   cat_features := ["jockey"] |};
              prep_test_pool :=
                {| data := [("speed", FloatCol [55 # 1; 63 # 1; 48 # 1]);
                            ("jockey", ObjectCol ["a"; "b"; "c"])];
                   label := [3; 1; 4]%Z;
                   group_id := Some [3]%Z;
                   cat_features := ["jockey"] |} |});
    reflexivity.
Defined.

(** ** The exit status *)

Lemma main_with_config (env : Env) (argv : list string) :
  (2 <= length argv)%nat ->
  match json_loads env (nth 1 argv "") with
  | Raise e =>
      main env argv = (Raises (Exception e), [JsonLoads (nth 1 argv "")])
  | Ok config =>
      main env argv =
      (fst (train_catboost env config),
       JsonLoads (nth 1 argv "") :: snd (train_catboost env config))
  end.
Proof.
  intros Hlen. unfold main.
  assert (H : (length argv <? 2)%nat = false) by (apply Nat.ltb_ge; lia).
  rewrite H.
  destruct (json_loads env (nth 1 argv "")) as [config | e]; simpl;
    [|reflexivity].
  destruct (train_catboost env config) as [o t]. reflexivity.
Qed.

Lemma returned_run_ends (env : Env) (config : Config) :
  fst (train_catboost env config) = Returns tt ->
  exists r,
    In (Print Stdout (JsonDumps r)) (trace (train_catboost env config)) /\
    last (trace (train_catboost env config)) (Mkdir "") = EndRun.
Proof.
  intros H. destruct (train_catboost_prints_result env config H) as (r & Hr & _).
  exists r. split; [exact Hr|].
  destruct (printed_in_body env config r Hr) as (p & Hp & Hs & Hb).
  destruct (train_body_printed _ _ _ _ _ _ _ _ _ Hb) as (predictions & fi & Hok).
  unfold train_catboost, trace.
  assert (Ht := tracked_run_started env p Hs).
  rewrite Hp. unfold bind.
  destruct (tracked_run env p) as [o t]. simpl in *. rewrite Ht.
  rewrite app_comm_cons, app_assoc. apply last_last.
Qed.

(** X16: the script exits with status 0 or 1.  Status 0 means that the
    imports succeeded, a configuration was given and parsed, and
    [train_catboost] returned: a result was printed on standard output and
    the last call was the end of the tracking run. *)
Theorem exit_status_of_script (env : Env) (argv : list string) :
  (exit_status (script env argv) = 0%Z \/ exit_status (script env argv) = 1%Z) /\
  (exit_status (script env argv) = 0%Z ->
   import_packages env = None /\
   (2 <= length argv)%nat /\
   exists config r,
     json_loads env (nth 1 argv "") = Ok config /\
     fst (train_catboost env config) = Returns tt /\
     In (Print Stdout (JsonDumps r)) (trace (script env argv)) /\
     last (trace (script env argv)) (Mkdir "") = EndRun).
Proof.
  unfold script, exit_status, trace.
  destruct (import_packages env) as [msg |].
  { simpl. split; [now right | discriminate]. }
  destruct (Nat.lt_ge_cases (length argv) 2) as [Hlt | Hge].
  { unfold main. apply Nat.ltb_lt in Hlt. rewrite Hlt. simpl.
    split; [now right | discriminate]. }
  assert (Hm := main_with_config env argv Hge).
  destruct (json_loads env (nth 1 argv "")) as [config | e]; rewrite Hm; simpl.
  - assert (Hr := train_catboost_raises env config).
    destruct (fst (train_catboost env config)) as [[] | s] eqn:E.
    + split; [now left|]. intros _. split; [reflexivity|].
      split; [exact Hge|]. exists config.
      destruct (returned_run_ends env config E) as (r & Hin & Hlast).
      exists r. split; [reflexivity|]. split; [exact E|].
      unfold trace in *. split; [now right|].
      destruct (snd (train_catboost env config)) as [| ev t]; [contradiction|].
      exact Hlast.
    + destruct (Hr s E) as [e ->]. split; [now right | discriminate].
  - split; [now right | discriminate].
Qed.

(** ** Properties of traces that sequencing keeps *)

Section Holds.
Variable P : list event -> Prop.
Hypothesis P_nil : P [].
Hypothesis P_app : forall t1 t2, P t1 -> P t2 -> P (t1 ++ t2).

Lemma holds_ret (A : Type) (a : A) : P (snd (ret a)).
Proof. exact P_nil. Qed.

Lemma holds_lift (A : Type) (r : res A) : P (snd (lift r)).
Proof. unfold lift, ret. destruct r; exact P_nil. Qed.

Lemma holds_call (A : Type) (ev : event) (r : res A) :
  P [ev] -> P (snd (call ev r)).
Proof. intros H. unfold call. destruct r; exact H. Qed.

Lemma holds_print (file : stream) (t : text) :
  P [Print file t] -> P (snd (print file t)).
Proof. intros H. exact H. Qed.

Lemma holds_bind (A B : Type) (c : Prog A) (f : A -> Prog B) :
  P (snd c) -> (forall a, P (snd (f a))) -> P (snd (bind c f)).
Proof.
  unfold bind. intros Hc Hf. destruct c as [[a | s] t]; simpl in *; [|exact Hc].
  specialize (Hf a). destruct (f a) as [r t']. simpl in *. now apply P_app.
Qed.

Lemma holds_try_finally (A : Type) (body : Prog A) (final : Prog unit) :
  P (snd body) -> P (snd final) -> P (snd (try_finally body final)).
Proof.
  unfold try_finally. intros Hb Hf. destruct body as [o t].
  destruct final as [[u | s] t']; simpl in *; now apply P_app.
Qed.

Lemma holds_for_each (A : Type) (xs : list A) (body : A -> Prog unit) :
  (forall x, P (snd (body x))) -> P (snd (for_each xs body)).
Proof.
  intros Hb. induction xs as [| x xs IH]; simpl.
  - exact P_nil.
  - apply holds_bind; [apply Hb | intros _; exact IH].
Qed.
End Holds.

(** ** The model file *)

Lemma files_closed_nil (env : Env) : files_closed env [].
Proof. intros path []. Qed.

Lemma files_closed_app (env : Env) (t1 t2 : list event) :
  files_closed env t1 -> files_closed env t2 -> files_closed env (t1 ++ t2).
Proof.
  intros H1 H2 path Hin Hok. apply in_app_or in Hin.
  destruct Hin as [Hin | Hin];
    [destruct (H1 path Hin Hok) as (m & Hd & Hc)
    | destruct (H2 path Hin Hok) as (m & Hd & Hc)];
    exists m; split; apply in_or_app; auto.
Qed.

Lemma files_closed_other (env : Env) (t : list event) :
  Forall (fun ev => forall path, ev <> OpenWb path) t -> files_closed env t.
Proof.
  intros H path Hin _. rewrite Forall_forall in H. now destruct (H _ Hin path).
Qed.

Ltac closed_head env :=
  first
    [ apply (@holds_lift (files_closed env) (files_closed_nil env))
    | apply (@holds_call (files_closed env));
      apply files_closed_other; constructor; [discriminate | constructor]
    | apply (@holds_print (files_closed env));
      apply files_closed_other; constructor; [discriminate | constructor] ].

Ltac closed_bind env :=
  apply (@holds_bind (files_closed env) (@files_closed_app env));
  [closed_head env | intros ?].

Lemma train_body_files_closed (env : Env) (output_path : string)
    (hp : dict json) (X_train X_test : Frame) (y_test : list Z)
    (train_pool test_pool : Pool) :
  files_closed env
    (snd (train_body env output_path hp X_train X_test y_test
                     train_pool test_pool)).
Proof.
  unfold train_body.
  apply (@holds_bind (files_closed env) (@files_closed_app env)).
  { apply (@holds_for_each (files_closed env) (files_closed_nil env)
                           (@files_closed_app env)).
    intros kv. closed_head env. }
  intros _. do 13 closed_bind env.
  (* the [with open(...)] block, with what follows it *)
  intros path Hin Hok.
  assert (Hpath : path = (output_path ++ "/catboost_model.pkl")%string).
  { apply in_bind_inv in Hin. destruct Hin as [Hin | (u & _ & Hin)].
    - apply in_call in Hin. now inversion Hin.
    - exfalso. apply in_bind_inv in Hin. destruct Hin as [Hin | (u' & _ & Hin)].
      + apply (proj1 (pickle_block_inv env _ _)) in Hin.
        destruct Hin as [Hin | Hin]; discriminate Hin.
      + inv_bind Hin u1 H1. inv_bind Hin fi H2. inv_bind Hin u3 H3.
        apply in_print in Hin. discriminate Hin. }
  subst path. rewrite Hok. unfold call at 1, bind at 1.
  exists (make_ranker hp).
  assert (Hblock :
    forall ev,
      ev = PickleDump (make_ranker hp) (output_path ++ "/catboost_model.pkl")%string \/
      ev = CloseFile (output_path ++ "/catboost_model.pkl")%string ->
      In ev (snd (try_finally
                    (call (PickleDump (make_ranker hp)
                                      (output_path ++ "/catboost_model.pkl")%string)
                          (pickle_dump env (make_ranker hp)
                                       (output_path ++ "/catboost_model.pkl")%string))
                    (Returns tt,
                     [CloseFile (output_path ++ "/catboost_model.pkl")%string])))).
  { intros ev Hev. unfold try_finally, call.
    destruct (pickle_dump env _ _); simpl; destruct Hev as [-> | ->]; auto. }
  match goal with
  | |- context [bind ?c ?f] =>
      assert (Hd := bind_trace_prefix c f _ (Hblock _ (or_introl eq_refl)));
      assert (Hc := bind_trace_prefix c f _ (Hblock _ (or_intror eq_refl)));
      destruct (bind c f) as [o t]
  end.
  simpl in *. split; right; assumption.
Qed.

(** A call that is made neither by the preparation nor to start or end
    the run is a call of the body of the [try]. *)
Lemma body_event_in (env : Env) (config : Config) (ev : event) :
  ~ prepare_event ev -> not_run_event ev ->
  In ev (trace (train_catboost env config)) ->
  exists p,
    prepare env config = (Returns p, snd (prepare env config)) /\
    mlflow_start_run env "catboost_training" = Ok tt /\
    In ev (snd (train_body env (prep_output_path p) (prep_hyperparameters p)
                           (prep_X_train p) (prep_X_test p) (prep_y_test p)
                           (prep_train_pool p) (prep_test_pool p))).
Proof.
  unfold train_catboost, trace. intros Hnp Hnr H.
  apply in_bind_inv in H. destruct H as [H | (p & Hp & H)].
  { apply prepare_event_in in H. contradiction. }
  exists p. split; [exact Hp|].
  unfold tracked_run in H.
  apply in_bind_inv in H. destruct H as [H | (u & Hs & H)].
  { apply in_call in H. subst ev. contradiction Hnr. }
  apply call_Returns_inv in Hs. destruct u. split; [exact Hs|].
  rewrite try_finally_trace in H. apply in_app_or in H.
  destruct H as [H | [H | []]]; [exact H | subst ev; contradiction Hnr].
Qed.

(** X17: a model file that [train_catboost] opened is written to and
    closed, whether [pickle.dump] returns or raises. *)
Theorem model_file_closed (env : Env) (config : Config) (path : string) :
  In (OpenWb path) (trace (train_catboost env config)) ->
  open_wb env path = Ok tt ->
  exists m,
    In (PickleDump m path) (trace (train_catboost env config)) /\
    In (CloseFile path) (trace (train_catboost env config)).
Proof.
  revert path. change (files_closed env (trace (train_catboost env config))).
  unfold train_catboost, trace.
  apply (@holds_bind (files_closed env) (@files_closed_app env)).
  - apply files_closed_other.
    assert (Hp := prepare_events env config). unfold emits_only in Hp.
    eapply Forall_impl; [|exact Hp].
    intros ev Hev path ->. exact Hev.
  - intros p. unfold tracked_run.
    apply (@holds_bind (files_closed env) (@files_closed_app env)).
    + closed_head env.
    + intros _.
      apply (@holds_try_finally (files_closed env) (@files_closed_app env)).
      * apply train_body_files_closed.
      * closed_head env.
Qed.

Lemma model_file_closed_witness :
  exists m,
    In (PickleDump m "/tmp/models/catboost_model.pkl")
       (trace (train_catboost sample_env sample_config)) /\
    In (CloseFile "/tmp/models/catboost_model.pkl")
       (trace (train_catboost sample_env sample_config)).
Proof.
  apply model_file_closed; [|reflexivity].
  cbv -[normalise discounted_gain IZR].
  repeat first [left; reflexivity | right].
Defined.

(** X18: a model is pickled only after it was fitted on the two pools and
    its predictions on the held-out rows were scored and logged: the model
    is the ranker built from the hyperparameters, and the file is
    [catboost_model.pkl] under the output directory. *)
Theorem pickled_model_was_fitted (env : Env) (config : Config) (m : Ranker)
    (path : string) :
  In (PickleDump m path) (trace (train_catboost env config)) ->
  exists p predictions v4 v3 v2 acc,
    prepare env config = (Returns p, snd (prepare env config)) /\
    m = make_ranker (prep_hyperparameters p) /\
    path = (prep_output_path p ++ "/catboost_model.pkl")%string /\
    model_fit env m (prep_train_pool p) (prep_test_pool p) = Ok tt /\
    model_predict env m (prep_X_test p) = Ok predictions /\
    calculate_ndcg (prep_y_test p) predictions 4 = Ok v4 /\
    calculate_ndcg (prep_y_test p) predictions 3 = Ok v3 /\
    calculate_ndcg (prep_y_test p) predictions 2 = Ok v2 /\
    calculate_accuracy (prep_y_test p) predictions = Ok acc /\
    mlflow_log_metric env "ndcg4" v4 = Ok tt /\
    mlflow_log_metric env "ndcg3" v3 = Ok tt /\
    mlflow_log_metric env "ndcg2" v2 = Ok tt /\
    mlflow_log_metric env "accuracy" acc = Ok tt /\
    open_wb env path = Ok tt.
Proof.
  intros H.
  destruct (body_event_in env config (PickleDump m path)) as (p & Hp & _ & Hb);
    [intros [] | exact I | exact H |].
  exists p. unfold train_body in Hb.
  apply in_bind_inv in Hb. destruct Hb as [Hb | (u0 & _ & Hb)].
  { apply in_for_each_call in Hb. destruct Hb as (kv & _ & Hb). discriminate Hb. }
  inv_bind Hb u1 H1.
  inv_bind Hb u2 Hranker.
  inv_bind Hb u3 Hfit. apply call_Returns_inv in Hfit.
  inv_bind Hb u4 H4.
  inv_bind Hb predictions Hpred. apply call_Returns_inv in Hpred.
  inv_bind Hb v4 Hv4. apply lift_Returns_inv in Hv4.
  inv_bind Hb v3 Hv3. apply lift_Returns_inv in Hv3.
  inv_bind Hb v2 Hv2. apply lift_Returns_inv in Hv2.
  inv_bind Hb acc Hacc. apply lift_Returns_inv in Hacc.
  inv_bind Hb u5 Hl4. apply call_Returns_inv in Hl4.
  inv_bind Hb u6 Hl3. apply call_Returns_inv in Hl3.
  inv_bind Hb u7 Hl2. apply call_Returns_inv in Hl2.
  inv_bind Hb u8 Hla. apply call_Returns_inv in Hla.
  inv_bind Hb u9 Hopen. apply call_Returns_inv in Hopen.
  destruct u3, u5, u6, u7, u8, u9.
  assert (Hm : m = make_ranker (prep_hyperparameters p) /\
               path = (prep_output_path p ++ "/catboost_model.pkl")%string).
  { apply in_bind_inv in Hb. destruct Hb as [Hb | (u10 & _ & Hb)].
    - apply (proj1 (pickle_block_inv env _ _)) in Hb.
      destruct Hb as [Hb | Hb]; [|discriminate Hb]. inversion Hb. now split.
    - exfalso. inv_bind Hb u11 Hart. inv_bind Hb fi Himp. inv_bind Hb u12 Hj.
      apply in_print in Hb. discriminate Hb. }
  destruct Hm as [-> ->].
  exists predictions, v4, v3, v2, acc. repeat (split; [assumption|]).
  repeat split; assumption.
Qed.

Lemma pickled_model_was_fitted_witness :
  exists p predictions v4 v3 v2 acc,
    prepare sample_env sample_config =
      (Returns p, snd (prepare sample_env sample_config)) /\
    make_ranker [("iterations", JInt 10)] =
      make_ranker (prep_hyperparameters p) /\
    "/tmp/models/catboost_model.pkl" =
      (prep_output_path p ++ "/catboost_model.pkl")%string /\
    model_fit sample_env (make_ranker [("iterations", JInt 10)])
              (prep_train_pool p) (prep_test_pool p) = Ok tt /\
    model_predict sample_env (make_ranker [("iterations", JInt 10)])
                  (prep_X_test p) = Ok predictions /\
    calculate_ndcg (prep_y_test p) predictions 4 = Ok v4 /\
    calculate_ndcg (prep_y_test p) predictions 3 = Ok v3 /\
    calculate_ndcg (prep_y_test p) predictions 2 = Ok v2 /\
    calculate_accuracy (prep_y_test p) predictions = Ok acc /\
    mlflow_log_metric sample_env "ndcg4" v4 = Ok tt /\
    mlflow_log_metric sample_env "ndcg3" v3 = Ok tt /\
    mlflow_log_metric sample_env "ndcg2" v2 = Ok tt /\
    mlflow_log_metric sample_env "accuracy" acc = Ok tt /\
    open_wb sample_env "/tmp/models/catboost_model.pkl" = Ok tt.
Proof.
  apply (@pickled_model_was_fitted sample_env sample_config
           (make_ranker [("iterations", JInt 10)])
           "/tmp/models/catboost_model.pkl").
  cbv -[normalise discounted_gain IZR].
  repeat first [left; reflexivity | right].
Defined.

Lemma ndcg_order_consistent_witness :
  calculate_ndcg [1; 2; 3]%Z [3; 2; 1]%Q 2 = Ok 1%R.
Proof.
  apply ndcg_order_consistent; [reflexivity | | vm_compute; split; discriminate].
  intros i j Hi Hj Hlt. simpl in Hi, Hj.
  destruct i as [| [| [| i]]]; destruct j as [| [| [| j]]];
    try lia; try (vm_compute in Hlt; discriminate Hlt); reflexivity.
Defined.
